(** * AuthContext: OAuth2 Authorization Code flow with PKCE

    A shallow embedding of [src/contexts/AuthContext.tsx]: the PKCE helpers,
    the [AuthProvider] operations ([login], [logout], [handleAuthCallback],
    the mount effect that loads persisted tokens) and the effect of
    [ProtectedRoute].

    Conventions of the embedding.
    - A JavaScript string is a [string]: a sequence of 8-bit code units.
      A configured value may hold a code unit above 255, which only [btoa]
      can tell (it throws); the platform record says for which variables
      that is so ([wide_code_units]).
    - [localStorage] and [sessionStorage] are finite maps from keys to
      string values; [getItem] of a missing key is [None] (JS [null]).
      Storage calls themselves do not throw in this model.
    - JavaScript numbers that the module computes with (epoch milliseconds,
      [expires_in]) are doubles with an integer value, modelled in [Z].
      Sums and products are exact while the result is a safe integer
      (below 2^53 in absolute value) and are rounded by the platform
      beyond ([round_double]); [toString] gives the decimal digits of a
      safe integer and the platform's string for any other number
      ([unsafe_number_string]).
    - What the browser decides (the clock, random values, the answer of the
      token endpoint, the page URL) is an explicit input. *)

From Stdlib Require Import ZArith Lia List String Ascii.
From Stdlib Require Import DecimalString DecimalZ.
From stdpp Require Import base option gmap strings list.

Local Open Scope string_scope.
Local Open Scope Z_scope.

(** ** JavaScript truthiness of a [string | null] value *)

Definition truthy (v : option string) : bool :=
  match v with
  | Some s => negb (String.eqb s "")
  | None => false
  end.

(** ** PKCE helpers *)

Module Base64.

(** The 64-character table of RFC 4648 section 4, used by [btoa]. *)
Definition table : string :=
  "ABCDEFGHIJKLMNOPQRSTUVWXYZabcdefghijklmnopqrstuvwxyz0123456789+/".

Definition pad : ascii := "="%char.

(** The character of a 6-bit group. *)
Definition sextet (i : Z) : ascii :=
  match String.get (Z.to_nat i) table with
  | Some c => c
  | None => pad
  end.

Definition code (c : ascii) : Z := Z.of_N (N_of_ascii c).

(** The platform's [btoa] on a binary string: three input characters give
    four output characters; a last group of one or two characters is
    padded with [=]. *)
Fixpoint btoa (binary : string) : string :=
  match binary with
  | EmptyString => EmptyString
  | String a EmptyString =>
      String (sextet (Z.shiftr (code a) 2))
     (String (sextet (Z.shiftl (Z.land (code a) 3) 4))
     (String pad (String pad EmptyString)))
  | String a (String b EmptyString) =>
      String (sextet (Z.shiftr (code a) 2))
     (String (sextet (Z.lor (Z.shiftl (Z.land (code a) 3) 4) (Z.shiftr (code b) 4)))
     (String (sextet (Z.shiftl (Z.land (code b) 15) 2))
     (String pad EmptyString)))
  | String a (String b (String c rest)) =>
      String (sextet (Z.shiftr (code a) 2))
     (String (sextet (Z.lor (Z.shiftl (Z.land (code a) 3) 4) (Z.shiftr (code b) 4)))
     (String (sextet (Z.lor (Z.shiftl (Z.land (code b) 15) 2) (Z.shiftr (code c) 6)))
     (String (sextet (Z.land (code c) 63))
     (btoa rest))))
  end.

End Base64.

(** [String.fromCharCode] on a byte of a [Uint8Array]. *)
Definition fromCharCode (b : Z) : ascii := ascii_of_N (Z.to_N (b mod 256)).

(** [s.replace(/c/g, d)]: every occurrence of the character [c] becomes [d]. *)
Fixpoint replace_all (c d : ascii) (s : string) : string :=
  match s with
  | EmptyString => EmptyString
  | String x rest =>
      String (if Ascii.eqb x c then d else x) (replace_all c d rest)
  end.

(** [s.replace(/=+$/g, '')]: the run of [=] at the end of [s] is removed. *)
Fixpoint strip_trailing_eq (s : string) : string :=
  match s with
  | EmptyString => EmptyString
  | String x rest =>
      match strip_trailing_eq rest with
      | EmptyString => if Ascii.eqb x "="%char then EmptyString else String x EmptyString
      | rest' => String x rest'
      end
  end.

(** The loop of [base64UrlEncode]: [binary += String.fromCharCode(bytes[i])]. *)
Fixpoint binary_of_bytes (binary : string) (bytes : list Z) : string :=
  match bytes with
  | [] => binary
  | b :: rest => binary_of_bytes (binary ++ String (fromCharCode b) EmptyString) rest
  end.

Definition base64UrlEncode (bytes : list Z) : string :=
  let binary := binary_of_bytes "" bytes in
  strip_trailing_eq
    (replace_all "/" "_" (replace_all "+" "-" (Base64.btoa binary))).

(** [new Uint8Array(n)] filled by [crypto.getRandomValues]: the i-th element
    is the i-th value of the random source, stored as an unsigned byte. *)
Definition getRandomValues (source : nat -> Z) (n : nat) : list Z :=
  List.map (fun i => source i mod 256) (seq 0 n).

Definition generateCodeVerifier (source : nat -> Z) : string :=
  let random := getRandomValues source 32 in
  base64UrlEncode random.


(** ** Numbers as strings *)

(** The decimal digits of an integer, with a leading minus sign when
    negative. *)
Definition decimal_string (n : Z) : string :=
  NilZero.string_of_int (Z.to_int n).

(** White space that [parseInt] skips, among 8-bit code units:
    TAB, LF, VT, FF, CR, SP and NBSP. *)
Definition is_whitespace (c : ascii) : bool :=
  let n := Base64.code c in
  ((9 <=? n) && (n <=? 13)) || (n =? 32) || (n =? 160).

Fixpoint skip_whitespace (s : string) : string :=
  match s with
  | String c rest => if is_whitespace c then skip_whitespace rest else s
  | EmptyString => EmptyString
  end.

Definition digit_value (c : ascii) : option Z :=
  let n := Base64.code c in
  if (48 <=? n) && (n <=? 57) then Some (n - 48) else None.

(** The longest prefix of decimal digits, read left to right; [None] when
    there is no digit at all. *)
Fixpoint parse_digits (acc : option Z) (s : string) : option Z :=
  match s with
  | String c rest =>
      match digit_value c with
      | Some d => parse_digits (Some (10 * default 0 acc + d)) rest
      | None => acc
      end
  | EmptyString => acc
  end.

(** [parseInt(s, 10)]; [None] stands for [NaN]. *)
Definition parseInt (s : string) : option Z :=
  let s1 := skip_whitespace s in
  let '(sign, s2) :=
    match s1 with
    | String "-"%char rest => (-1, rest)
    | String "+"%char rest => (1, rest)
    | _ => (1, s1)
    end in
  match parse_digits None s2 with
  | Some n => Some (sign * n)
  | None => None
  end.

(** [a < b] where [b] may be [NaN]: a comparison with [NaN] is false. *)
Definition lt_number (a : Z) (b : option Z) : bool :=
  match b with
  | Some b => a <? b
  | None => false
  end.

(** ** The browser state the module reads and writes *)

(** React state of [AuthProvider]. *)
Record Session := mkSession {
  isAuthenticated : bool;
  isLoading : bool;
  accessToken : option string;
}.

(** The initial values given to [useState]. *)
Definition initial_session : Session :=
  {| isAuthenticated := false; isLoading := true; accessToken := None |}.

(** What the code does to the outside, in the order it happens. *)
Inductive Event :=
| ConsoleLog (msg : string)
| ConsoleWarn (msg : string)
| ConsoleError (msg : string)
| FetchPost (url : string) (headers : list (string * string)) (body : string)
| LocationAssign (url : string)
| LocationReplace (url : string).

Definition is_fetch (e : Event) : bool :=
  match e with FetchPost _ _ _ => true | _ => false end.

Definition is_navigation (e : Event) : bool :=
  match e with LocationAssign _ | LocationReplace _ => true | _ => false end.

Record World := mkWorld {
  localStorage : gmap string string;
  sessionStorage : gmap string string;
  session : Session;
  (* React state of [ProtectedRoute] *)
  isProcessingCallback : bool;
  hasRedirected : bool;
  (* [window.location]: path and query parameters *)
  pathname : string;
  search : list (string * string);
  events : list Event;
}.

(** The answer of the token endpoint. [text] and [json] are [None] when
    reading the body rejects (for [json]: also when it is not JSON). *)
Record TokenResponse := mkTokenResponse {
  access_token : string;
  id_token : string;
  refresh_token : option string;
  expires_in : Z;
  token_type : string;
}.

Record Response := mkResponse {
  ok : bool;
  text : option string;
  json : option TokenResponse;
}.

Inductive FetchResult :=
| FetchRejects (error : string)
| FetchResolves (response : Response).

(** What the platform supplies. *)
Record Browser := mkBrowser {
  envRecord : gmap string string;          (* import.meta.env *)
  Date_now : Z;                            (* Date.now() *)
  Math_random_state : string;              (* Math.random().toString(36).substring(7) *)
  crypto_random : nat -> Z;                (* crypto.getRandomValues *)
  crypto_digest : string -> list Z;        (* SHA-256 of the UTF-8 bytes *)
  URLSearchParams_toString : list (string * string) -> string;
  encodeURIComponent : string -> string;
  fetch : string -> list (string * string) -> string -> FetchResult;
  (* the value of this environment variable has a code unit above 255 *)
  wide_code_units : string -> bool;
  (* the double nearest to an integer that is not a safe integer *)
  round_double : Z -> Z;
  (* toString() of an integer-valued double that is not a safe integer *)
  unsafe_number_string : Z -> string;
}.

(** ** JavaScript numbers with an integer value *)

(** [Number.isSafeInteger]: strictly between [-2^53] and [2^53]. *)
Definition safe_integer (n : Z) : bool :=
  (- 2 ^ 53 <? n) && (n <? 2 ^ 53).

(** The double that holds the exact result [n] of an operation on doubles:
    [n] itself when it is a safe integer, its rounding otherwise. *)
Definition to_double (B : Browser) (n : Z) : Z :=
  if safe_integer n then n else round_double B n.

Definition number_add (B : Browser) (a b : Z) : Z := to_double B (a + b).
Definition number_mul (B : Browser) (a b : Z) : Z := to_double B (a * b).

(** [n.toString()]: the decimal digits of a safe integer; beyond, the
    shortest digits that give the double back, in exponent notation from
    10^21 on, which the platform supplies. *)
Definition Number_toString (B : Browser) (n : Z) : string :=
  if safe_integer n then decimal_string n else unsafe_number_string B n.

(** ** Computations: state and exceptions *)

Inductive Completion (A : Type) :=
| Normal (a : A)
| Throw (error : string).
Arguments Normal {A} a.
Arguments Throw {A} error.

Definition M (A : Type) : Type := World -> Completion A * World.

Definition ret {A} (a : A) : M A := fun w => (Normal a, w).

Definition bind {A B} (m : M A) (k : A -> M B) : M B :=
  fun w =>
    match m w with
    | (Normal a, w') => k a w'
    | (Throw e, w') => (Throw e, w')
    end.

Definition throw {A} (e : string) : M A := fun w => (Throw e, w).

(** [try { body } catch (e) { handler }] *)
Definition try_catch {A} (body : M A) (handler : string -> M A) : M A :=
  fun w =>
    match body w with
    | (Normal a, w') => (Normal a, w')
    | (Throw e, w') => handler e w'
    end.

(** [try { body } finally { final }] *)
Definition try_finally {A} (body : M A) (final : M unit) : M A :=
  fun w =>
    match body w with
    | (c, w') =>
        match final w' with
        | (Normal _, w'') => (c, w'')
        | (Throw e, w'') => (Throw e, w'')
        end
    end.

Declare Scope js_scope.
Delimit Scope js_scope with js.
Notation "x <- m ;; k" := (bind m (fun x => k))
  (at level 100, m at next level, right associativity) : js_scope.
Notation "m ;; k" := (bind m (fun _ => k))
  (at level 100, right associativity) : js_scope.
Local Open Scope js_scope.

Definition modify (f : World -> World) : M unit := fun w => (Normal tt, f w).
Definition reads {A} (f : World -> A) : M A := fun w => (Normal (f w), w).

Definition set_localStorage (f : gmap string string -> gmap string string) (w : World) : World :=
  mkWorld (f (localStorage w)) (sessionStorage w) (session w)
          (isProcessingCallback w) (hasRedirected w) (pathname w) (search w) (events w).

Definition set_sessionStorage (f : gmap string string -> gmap string string) (w : World) : World :=
  mkWorld (localStorage w) (f (sessionStorage w)) (session w)
          (isProcessingCallback w) (hasRedirected w) (pathname w) (search w) (events w).

Definition set_session (f : Session -> Session) (w : World) : World :=
  mkWorld (localStorage w) (sessionStorage w) (f (session w))
          (isProcessingCallback w) (hasRedirected w) (pathname w) (search w) (events w).

Definition emit (e : Event) (w : World) : World :=
  mkWorld (localStorage w) (sessionStorage w) (session w)
          (isProcessingCallback w) (hasRedirected w) (pathname w) (search w) (events w ++ [e]).

Module localStorage.
Definition getItem (k : string) : M (option string) := reads (fun w => localStorage w !! k).
Definition setItem (k v : string) : M unit := modify (set_localStorage (insert k v)).
Definition removeItem (k : string) : M unit := modify (set_localStorage (delete k)).
End localStorage.

Module sessionStorage.
Definition getItem (k : string) : M (option string) := reads (fun w => sessionStorage w !! k).
Definition setItem (k v : string) : M unit := modify (set_sessionStorage (insert k v)).
Definition removeItem (k : string) : M unit := modify (set_sessionStorage (delete k)).
End sessionStorage.

Module console.
Definition log (msg : string) : M unit := modify (emit (ConsoleLog msg)).
Definition warn (msg : string) : M unit := modify (emit (ConsoleWarn msg)).
Definition error (msg : string) : M unit := modify (emit (ConsoleError msg)).
End console.

(** React state setters. *)
Definition setAccessToken (t : option string) : M unit :=
  modify (set_session (fun s => mkSession (isAuthenticated s) (isLoading s) t)).
Definition setIsAuthenticated (b : bool) : M unit :=
  modify (set_session (fun s => mkSession b (isLoading s) (accessToken s))).
Definition setIsLoading (b : bool) : M unit :=
  modify (set_session (fun s => mkSession (isAuthenticated s) b (accessToken s))).
Definition setIsProcessingCallback (b : bool) : M unit :=
  modify (fun w => mkWorld (localStorage w) (sessionStorage w) (session w)
                           b (hasRedirected w) (pathname w) (search w) (events w)).
Definition setHasRedirected (b : bool) : M unit :=
  modify (fun w => mkWorld (localStorage w) (sessionStorage w) (session w)
                           (isProcessingCallback w) b (pathname w) (search w) (events w)).

(** [window.history.replaceState({}, title, url)] with a bare path: the
    query string is gone. *)
Definition history_replaceState (url : string) : M unit :=
  modify (fun w => mkWorld (localStorage w) (sessionStorage w) (session w)
                           (isProcessingCallback w) (hasRedirected w) url [] (events w)).

(** [params.get(k)]: the first value of [k]. *)
Fixpoint params_get (k : string) (params : list (string * string)) : option string :=
  match params with
  | [] => None
  | (k', v) :: rest => if String.eqb k' k then Some v else params_get k rest
  end.

(** [params.set(k, v)]: the first pair of [k] takes the value, later pairs
    of [k] are dropped; a new pair is appended when there is none. *)
Fixpoint params_set (k v : string) (params : list (string * string)) : list (string * string) :=
  match params with
  | [] => [(k, v)]
  | (k', v') :: rest =>
      if String.eqb k' k
      then (k, v) :: List.filter (fun p => negb (String.eqb (fst p) k)) rest
      else (k', v') :: params_set k v rest
  end.

(** ** The module *)

Section AuthContext.

Variable B : Browser.

(** [envRecord.NAME ?? ''] *)
Definition env_or_empty (name : string) : string :=
  default "" (envRecord B !! name).

Record OAuthConfig := mkOAuthConfig {
  authUrl : string;
  tokenUrl : string;
  clientId : string;
  clientSecret : string;
  scopes : string;
  redirectUri : string;
}.

Definition OAUTH_CONFIG : OAuthConfig :=
  {| authUrl := env_or_empty "VITE_OAUTH_AUTH_URL";
     tokenUrl := env_or_empty "VITE_OAUTH_TOKEN_URL";
     clientId := env_or_empty "VITE_OAUTH_CLIENT_ID";
     clientSecret := env_or_empty "VITE_OAUTH_CLIENT_SECRET";
     scopes := env_or_empty "VITE_OAUTH_SCOPES";
     redirectUri := env_or_empty "VITE_OAUTH_REDIRECT_URI" |}.

Definition sha256 (input : string) : list Z := crypto_digest B input.

(** The configured value of [name] has a code unit above 255. *)
Definition env_is_wide (name : string) : bool :=
  match envRecord B !! name with
  | Some _ => wide_code_units B name
  | None => false
  end.

(** The string [clientId:clientSecret] has a code unit above 255. *)
Definition credentials_wide : bool :=
  env_is_wide "VITE_OAUTH_CLIENT_ID" || env_is_wide "VITE_OAUTH_CLIENT_SECRET".

(** The platform's [btoa] on a string: it throws when the string has a code
    unit above 255 ([wide]), and encodes it otherwise. *)
Definition btoa (wide : bool) (s : string) : M string :=
  if wide then throw "InvalidCharacterError" else ret (Base64.btoa s).

(** The effect run on mount: check for existing tokens. *)
Definition load_tokens : M unit :=
  token <- localStorage.getItem "access_token" ;;
  tokenExpiry <- localStorage.getItem "token_expiry" ;;
  (if truthy token && truthy tokenExpiry then
     let expiryTime := parseInt (default "" tokenExpiry) in
     if lt_number (Date_now B) expiryTime then
       setAccessToken token ;;
       setIsAuthenticated true
     else
       localStorage.removeItem "access_token" ;;
       localStorage.removeItem "id_token" ;;
       localStorage.removeItem "refresh_token" ;;
       localStorage.removeItem "token_expiry"
   else ret tt) ;;
  setIsLoading false.

Definition login : M unit :=
  try_catch (sessionStorage.setItem "isLoggingIn" "1") (fun _ => ret tt) ;;
  let state := Math_random_state B in
  localStorage.setItem "oauth_state" state ;;
  (* the async block, run to its end *)
  if negb (truthy (Some (redirectUri OAUTH_CONFIG))) then
    console.error "VITE_OAUTH_REDIRECT_URI is not set. Aborting login to avoid using a default redirect URI." ;;
    try_catch (sessionStorage.removeItem "isLoggingIn") (fun _ => ret tt)
  else
    let verifier := generateCodeVerifier (crypto_random B) in
    try_catch (sessionStorage.setItem "pkce_verifier" verifier)
              (fun _ => console.warn "Unable to store pkce_verifier") ;;
    let challenge := base64UrlEncode (sha256 verifier) in
    let params :=
      [ ("response_type", "code");
        ("client_id", clientId OAUTH_CONFIG);
        ("redirect_uri", redirectUri OAUTH_CONFIG);
        ("scope", scopes OAUTH_CONFIG);
        ("state", state);
        ("code_challenge", challenge);
        ("code_challenge_method", "S256") ] in
    let authUrl := authUrl OAUTH_CONFIG ++ "?" ++ URLSearchParams_toString B params in
    console.log "Redirecting to authorize with PKCE" ;;
    modify (emit (LocationAssign authUrl)).

Definition logout : M unit :=
  try_catch (sessionStorage.setItem "justLoggedOut" "1") (fun _ => ret tt) ;;
  setAccessToken None ;;
  setIsAuthenticated false ;;
  try_catch
    (localStorage.removeItem "access_token" ;;
     localStorage.removeItem "id_token" ;;
     localStorage.removeItem "refresh_token" ;;
     localStorage.removeItem "token_expiry" ;;
     localStorage.removeItem "oauth_state" ;;
     sessionStorage.removeItem "pkce_verifier")
    (fun _ => ret tt) ;;
  if negb (truthy (envRecord B !! "VITE_OAUTH_LOGOUT_URL"))
     || negb (truthy (envRecord B !! "VITE_OAUTH_LOGOUT_REDIRECT")) then
    console.error "Missing required environment variables for logout: VITE_OAUTH_LOGOUT_URL or VITE_OAUTH_LOGOUT_REDIRECT"
  else
    let logoutUrl :=
      env_or_empty "VITE_OAUTH_LOGOUT_URL" ++ "?client_id="
      ++ encodeURIComponent B (clientId OAUTH_CONFIG) ++ "&logout_uri="
      ++ encodeURIComponent B (env_or_empty "VITE_OAUTH_LOGOUT_REDIRECT") in
    modify (emit (LocationReplace logoutUrl)).

(** [await fetch(url, { method: 'POST', headers, body })] *)
Definition fetch_post (url : string) (headers : list (string * string)) (body : string)
  : M Response :=
  modify (emit (FetchPost url headers body)) ;;
  match fetch B url headers body with
  | FetchRejects e => throw e
  | FetchResolves r => ret r
  end.

(** [await response.text()] and [await response.json()] *)
Definition Response_text (r : Response) : M string :=
  match text r with Some t => ret t | None => throw "TypeError" end.
Definition Response_json (r : Response) : M TokenResponse :=
  match json r with Some t => ret t | None => throw "SyntaxError" end.

Definition handleAuthCallback (code state : string) : M bool :=
  savedState <- localStorage.getItem "oauth_state" ;;
  if negb (bool_decide (Some state = savedState)) then
    console.error "State mismatch - possible CSRF attack" ;;
    try_catch (sessionStorage.removeItem "isLoggingIn") (fun _ => ret tt) ;;
    ret false
  else
    localStorage.removeItem "oauth_state" ;;
    try_finally
      (try_catch
         (let tokenParams :=
            [ ("grant_type", "authorization_code");
              ("client_id", clientId OAUTH_CONFIG);
              ("code", code);
              ("redirect_uri", redirectUri OAUTH_CONFIG) ] in
          tokenParams <-
            try_catch
              (verifier <- sessionStorage.getItem "pkce_verifier" ;;
               if truthy verifier then
                 sessionStorage.removeItem "pkce_verifier" ;;
                 ret (params_set "code_verifier" (default "" verifier) tokenParams)
               else ret tokenParams)
              (fun _ => console.warn "PKCE verifier not available:" ;; ret tokenParams) ;;
          let headers := [ ("Content-Type", "application/x-www-form-urlencoded") ] in
          headers <-
            (if truthy (Some (clientSecret OAUTH_CONFIG)) then
               credentials <-
                 btoa credentials_wide
                      (clientId OAUTH_CONFIG ++ ":" ++ clientSecret OAUTH_CONFIG) ;;
               ret (List.app headers [ ("Authorization", "Basic " ++ credentials) ])
             else ret headers) ;;
          response <- fetch_post (tokenUrl OAUTH_CONFIG) headers
                                 (URLSearchParams_toString B tokenParams) ;;
          if negb (ok response) then
            errorText <- Response_text response ;;
            console.error ("Token exchange failed: " ++ errorText) ;;
            ret false
          else
            tokens <- Response_json response ;;
            localStorage.setItem "access_token" (access_token tokens) ;;
            localStorage.setItem "id_token" (id_token tokens) ;;
            (if truthy (refresh_token tokens) then
               localStorage.setItem "refresh_token" (default "" (refresh_token tokens))
             else ret tt) ;;
            let expiryTime :=
              number_add B (Date_now B) (number_mul B (expires_in tokens) 1000) in
            localStorage.setItem "token_expiry" (Number_toString B expiryTime) ;;
            setAccessToken (Some (access_token tokens)) ;;
            setIsAuthenticated true ;;
            ret true)
         (fun error => console.error "Error during token exchange:" ;; ret false))
      (try_catch (sessionStorage.removeItem "isLoggingIn") (fun _ => ret tt)).

(** The value [AuthProvider] hands to its consumers. *)
Record AuthContextType := mkAuthContextType {
  ctx_isAuthenticated : bool;
  ctx_isLoading : bool;
  ctx_login : M unit;
  ctx_logout : M unit;
  ctx_accessToken : option string;
  ctx_handleAuthCallback : option (string -> string -> M bool);
}.

Definition AuthProvider_value (s : Session) : AuthContextType :=
  {| ctx_isAuthenticated := isAuthenticated s;
     ctx_isLoading := isLoading s;
     ctx_login := login;
     ctx_logout := logout;
     ctx_accessToken := accessToken s;
     ctx_handleAuthCallback := Some handleAuthCallback |}.

(** The effect of [ProtectedRoute], for the context value [auth] and the
    [hasRedirected] state of the render it belongs to. *)
Definition processCallback (auth : AuthContextType) (hasRedirected : bool) : M unit :=
  code <- reads (fun w => params_get "code" (search w)) ;;
  state <- reads (fun w => params_get "state" (search w)) ;;
  (* code && state && auth.handleAuthCallback *)
  match (if truthy code && truthy state then ctx_handleAuthCallback auth else None) with
  | Some handle =>
      setIsProcessingCallback true ;;
      try_finally
        (try_catch
           (success <- handle (default "" code) (default "" state) ;;
            if success : bool then
              path <- reads pathname ;;
              history_replaceState path
            else ret tt)
           (fun _ => console.error "Error processing callback:"))
        (setIsProcessingCallback false)
  | None =>
      if negb (ctx_isLoading auth) && negb (ctx_isAuthenticated auth)
         && negb hasRedirected then
        justLoggedOut <- sessionStorage.getItem "justLoggedOut" ;;
        if truthy justLoggedOut then
          try_catch (sessionStorage.removeItem "justLoggedOut") (fun _ => ret tt) ;;
          setHasRedirected true
        else
          logging <- sessionStorage.getItem "isLoggingIn" ;;
          if truthy logging then
            console.log "Login already in progress, skipping duplicate trigger" ;;
            setHasRedirected true
          else
            setHasRedirected true ;;
            ctx_login auth
      else ret tt
  end.

End AuthContext.

(** ** Concrete inputs used by the examples below *)

Module Examples.

Definition tokens_A : TokenResponse :=
  {| access_token := "A"; id_token := "I"; refresh_token := None;
     expires_in := 3600; token_type := "Bearer" |}.

(** A platform whose token endpoint answers [answer]; [env] is the build
    environment. *)
Definition browser (env : gmap string string) (answer : FetchResult) : Browser :=
  {| envRecord := env;
     Date_now := 1000;
     Math_random_state := "k3j9x";
     crypto_random := fun i => Z.of_nat i;
     crypto_digest := fun _ => [1; 2; 3];
     URLSearchParams_toString := fun _ => "";
     encodeURIComponent := fun s => s;
     fetch := fun _ _ _ => answer;
     wide_code_units := fun _ => false;
     round_double := fun n => n;
     unsafe_number_string := fun _ => "1e+21" |}.

(** The same platform with a client secret that [btoa] cannot encode. *)
Definition browser_wide_secret (answer : FetchResult) : Browser :=
  {| envRecord := <["VITE_OAUTH_CLIENT_SECRET" := "s"]> ∅;
     Date_now := 1000;
     Math_random_state := "k3j9x";
     crypto_random := fun i => Z.of_nat i;
     crypto_digest := fun _ => [1; 2; 3];
     URLSearchParams_toString := fun _ => "";
     encodeURIComponent := fun s => s;
     fetch := fun _ _ _ => answer;
     wide_code_units := fun _ => true;
     round_double := fun n => n;
     unsafe_number_string := fun _ => "1e+21" |}.

Definition configured : gmap string string :=
  <["VITE_OAUTH_REDIRECT_URI" := "https://app.example/callback"]> ∅.

Definition endpoint_ok : FetchResult :=
  FetchResolves {| ok := true; text := None; json := Some tokens_A |}.

Definition endpoint_down : FetchResult := FetchRejects "NetworkError".

Definition world (local session_scoped : gmap string string) : World :=
  {| localStorage := local; sessionStorage := session_scoped;
     session := initial_session;
     isProcessingCallback := false; hasRedirected := false;
     pathname := "/dashboard"; search := []; events := [] |}.

(** A login is under way: state [xyz] and a verifier are stored. *)
Definition awaiting_callback : World :=
  world (<["oauth_state" := "xyz"]> ∅)
        (<["pkce_verifier" := "ver"]> (<["isLoggingIn" := "1"]> ∅)).

End Examples.

(** ** Properties *)

Definition fetch_count (l : list Event) : nat := List.length (List.filter is_fetch l).
Definition navigation_count (l : list Event) : nat := List.length (List.filter is_navigation l).

(** *** The code verifier *)

(** The alphabet of base64url (RFC 4648 section 5): letters, digits, [-]
    and [_]. The padding character [=] is not part of it. *)
Definition base64url_char (c : ascii) : bool :=
  let n := Base64.code c in
  ((65 <=? n) && (n <=? 90)) || ((97 <=? n) && (n <=? 122))
  || ((48 <=? n) && (n <=? 57)) || (n =? 45) || (n =? 95).

Fixpoint string_forall (P : ascii -> bool) (s : string) : bool :=
  match s with
  | EmptyString => true
  | String c rest => P c && string_forall P rest
  end.

(** What the two replacements do to one character. *)
Definition url_safe (c : ascii) : ascii :=
  let c1 := if Ascii.eqb c "+" then "-"%char else c in
  if Ascii.eqb c1 "/" then "_"%char else c1.

(** The value of a digit sequence read after the prefix value [acc]. *)
Fixpoint digits_value (acc : Z) (d : Decimal.uint) : Z :=
  match d with
  | Decimal.Nil => acc
  | Decimal.D0 d => digits_value (10 * acc + 0) d
  | Decimal.D1 d => digits_value (10 * acc + 1) d
  | Decimal.D2 d => digits_value (10 * acc + 2) d
  | Decimal.D3 d => digits_value (10 * acc + 3) d
  | Decimal.D4 d => digits_value (10 * acc + 4) d
  | Decimal.D5 d => digits_value (10 * acc + 5) d
  | Decimal.D6 d => digits_value (10 * acc + 6) d
  | Decimal.D7 d => digits_value (10 * acc + 7) d
  | Decimal.D8 d => digits_value (10 * acc + 8) d
  | Decimal.D9 d => digits_value (10 * acc + 9) d
  end.

(** *** Storage predicates *)

(** The four keys of the persisted token record. *)
Definition token_fields : list string :=
  ["access_token"; "id_token"; "refresh_token"; "token_expiry"].

(** Neither the CSRF state token nor the PKCE verifier is in storage. *)
Definition flow_secrets_cleared (w : World) : Prop :=
  localStorage w !! "oauth_state" = None
  /\ sessionStorage w !! "pkce_verifier" = None.

(** The token exchange does not succeed: the request rejects, the answer
    has a non-success status, or its body cannot be parsed. *)
Definition exchange_fails (r : FetchResult) : bool :=
  match r with
  | FetchRejects _ => true
  | FetchResolves r =>
      if ok r then match json r with Some _ => false | None => true end
      else true
  end.

(** The request of the token exchange, for the authorization code [code]
    and the verifier found in session storage: headers, form parameters,
    and what the token endpoint answers to it. *)
Definition exchange_headers (B : Browser) : list (string * string) :=
  if truthy (Some (clientSecret (OAUTH_CONFIG B))) then
    List.app [ ("Content-Type", "application/x-www-form-urlencoded") ]
             [ ("Authorization",
                "Basic " ++ Base64.btoa (clientId (OAUTH_CONFIG B) ++ ":"
                                         ++ clientSecret (OAUTH_CONFIG B))) ]
  else [ ("Content-Type", "application/x-www-form-urlencoded") ].

Definition exchange_params (B : Browser) (code : string) (verifier : option string)
  : list (string * string) :=
  if truthy verifier then
    params_set "code_verifier" (default "" verifier)
      [ ("grant_type", "authorization_code");
        ("client_id", clientId (OAUTH_CONFIG B));
        ("code", code);
        ("redirect_uri", redirectUri (OAUTH_CONFIG B)) ]
  else
    [ ("grant_type", "authorization_code");
      ("client_id", clientId (OAUTH_CONFIG B));
      ("code", code);
      ("redirect_uri", redirectUri (OAUTH_CONFIG B)) ].

Definition exchange_answer (B : Browser) (code : string) (w : World) : FetchResult :=
  fetch B (tokenUrl (OAUTH_CONFIG B)) (exchange_headers B)
        (URLSearchParams_toString B
           (exchange_params B code (sessionStorage w !! "pkce_verifier"))).

(** [setHasRedirected(true)] as a change of the world. *)
Definition mark_redirected (w : World) : World :=
  mkWorld (localStorage w) (sessionStorage w) (session w)
          (isProcessingCallback w) true (pathname w) (search w) (events w).

(** *** Requests and targets of the flow *)

(** The query parameters of the authorization request that [login] builds. *)
Definition authorization_params (B : Browser) : list (string * string) :=
  [ ("response_type", "code");
    ("client_id", clientId (OAUTH_CONFIG B));
    ("redirect_uri", redirectUri (OAUTH_CONFIG B));
    ("scope", scopes (OAUTH_CONFIG B));
    ("state", Math_random_state B);
    ("code_challenge",
     base64UrlEncode (sha256 B (generateCodeVerifier (crypto_random B))));
    ("code_challenge_method", "S256") ].

Definition authorization_url (B : Browser) : string :=
  authUrl (OAUTH_CONFIG B) ++ "?" ++ URLSearchParams_toString B (authorization_params B).

(** The address [logout] navigates to. *)
Definition logout_url (B : Browser) : string :=
  env_or_empty B "VITE_OAUTH_LOGOUT_URL" ++ "?client_id="
  ++ encodeURIComponent B (clientId (OAUTH_CONFIG B)) ++ "&logout_uri="
  ++ encodeURIComponent B (env_or_empty B "VITE_OAUTH_LOGOUT_REDIRECT").

(** Both logout settings are present and not empty. *)
Definition logout_configured (B : Browser) : bool :=
  truthy (envRecord B !! "VITE_OAUTH_LOGOUT_URL")
  && truthy (envRecord B !! "VITE_OAUTH_LOGOUT_REDIRECT").

(** [c] occurs in [s]. *)
Definition occurs (c : ascii) (s : string) : Prop := In c (list_ascii_of_string s).

(** Two worlds hold the same durable and session storage (a page load
    keeps the storage and nothing else). *)
Definition same_storage (w1 w2 : World) : Prop :=
  localStorage w1 = localStorage w2 /\ sessionStorage w1 = sessionStorage w2.

(** The page a navigation leads to: storage is kept, React state starts
    anew, the location is the new one. *)
Definition page_load (w : World) (path : string) (query : list (string * string)) : World :=
  {| localStorage := localStorage w; sessionStorage := sessionStorage w;
     session := initial_session;
     isProcessingCallback := false; hasRedirected := false;
     pathname := path; search := query; events := [] |}.

(** What is left of durable storage when the four token keys are removed. *)
Definition purge_tokens (m : gmap string string) : gmap string string :=
  delete "token_expiry" (delete "refresh_token" (delete "id_token" (delete "access_token" m))).

(** Durable storage after the token answer [tokens] has been stored at
    time [Date_now B]. *)
Definition store_tokens (B : Browser) (tokens : TokenResponse)
    (m : gmap string string) : gmap string string :=
  <["token_expiry" :=
      Number_toString B (number_add B (Date_now B) (number_mul B (expires_in tokens) 1000))]>
    ((if truthy (refresh_token tokens)
      then <["refresh_token" := default "" (refresh_token tokens)]>
             (<["id_token" := id_token tokens]>
                (<["access_token" := access_token tokens]> m))
      else <["id_token" := id_token tokens]>
             (<["access_token" := access_token tokens]> m))).

(** Session storage after the verifier, when there is a non-empty one, has
    been used. *)
Definition consume_verifier (m : gmap string string) : gmap string string :=
  if truthy (m !! "pkce_verifier") then delete "pkce_verifier" m else m.

(** Durable storage after [logout]. *)
Definition logout_storage (m : gmap string string) : gmap string string :=
  delete "oauth_state" (purge_tokens m).

(** [setIsProcessingCallback(b)] as a change of the world. *)
Definition mark_processing (b : bool) (w : World) : World :=
  mkWorld (localStorage w) (sessionStorage w) (session w)
          b (hasRedirected w) (pathname w) (search w) (events w).

(** [history.replaceState] to the bare path, as a change of the world. *)
Definition strip_query (w : World) : World :=
  mkWorld (localStorage w) (sessionStorage w) (session w)
          (isProcessingCallback w) (hasRedirected w) (pathname w) [] (events w).

(** The URL carries both a [code] and a [state] parameter, neither empty. *)
Definition has_callback_params (w : World) : bool :=
  truthy (params_get "code" (search w)) && truthy (params_get "state" (search w)).

(** The handler reported success. *)
Definition returned_true (c : Completion bool) : bool :=
  match c with
  | Normal true => true
  | _ => false
  end.

(** The position of an output character in the URL-safe table, found by
    search; 64 when the character is not in it. *)
Fixpoint find_sextet (c : ascii) (fuel : nat) (i : Z) : Z :=
  match fuel with
  | O => i
  | S fuel' =>
      if Ascii.eqb (url_safe (Base64.sextet i)) c then i
      else find_sextet c fuel' (i + 1)
  end.

Definition sextet_index (c : ascii) : Z := find_sextet c 64 0.

(** An element of a [Uint8Array]. *)
Definition is_byte (b : Z) : Prop := 0 <= b < 256.

(** The binary string of a byte sequence, first byte first. *)
Fixpoint binary_string (bytes : list Z) : string :=
  match bytes with
  | [] => EmptyString
  | b :: rest => String (fromCharCode b) (binary_string rest)
  end.

(** The credentials header can be built: no client secret is configured,
    or [clientId:clientSecret] has no code unit above 255. *)
Definition credentials_encodable (B : Browser) : bool :=
  negb (truthy (Some (clientSecret (OAUTH_CONFIG B)))) || negb (credentials_wide B).

(** The expiry of [tokens] is within the integers that doubles keep
    exactly: the product and the sum are safe integers. *)
Definition expiry_exact (B : Browser) (tokens : TokenResponse) : bool :=
  safe_integer (expires_in tokens * 1000)
  && safe_integer (Date_now B + expires_in tokens * 1000).

Lemma code_bounded (c : ascii) : 0 <= Base64.code c < 256.
Proof.
  unfold Base64.code. pose proof (N_ascii_bounded c). lia.
Qed.

Lemma sextet_url_safe (i : Z) :
  0 <= i < 64 ->
  base64url_char (url_safe (Base64.sextet i)) = true
  /\ url_safe (Base64.sextet i) <> "="%char.
Proof.
  intros Hi.
  assert (Hall : List.forallb
            (fun k => let c := url_safe (Base64.sextet (Z.of_nat k)) in
                      base64url_char c && negb (Ascii.eqb c "="))
            (seq 0 64) = true) by (vm_compute; reflexivity).
  rewrite List.forallb_forall in Hall.
  specialize (Hall (Z.to_nat i)).
  rewrite Z2Nat.id in Hall by lia.
  assert (Hin : List.In (Z.to_nat i) (seq 0 64)) by (apply List.in_seq; lia).
  apply Hall in Hin. cbv zeta in Hin.
  apply andb_true_iff in Hin as [H1 H2].
  split; [exact H1 |].
  intros Heq. rewrite Heq in H2. discriminate.
Qed.

Lemma replace_all_cons (c d x : ascii) (s : string) :
  replace_all c d (String x s) = String (if Ascii.eqb x c then d else x) (replace_all c d s).
Proof. reflexivity. Qed.

Lemma strip_trailing_eq_cons (x : ascii) (s : string) :
  x <> "="%char ->
  strip_trailing_eq (String x s) = String x (strip_trailing_eq s).
Proof.
  intros Hx. simpl. destruct (strip_trailing_eq s); [| reflexivity].
  destruct (Ascii.eqb_spec x "="); [contradiction | reflexivity].
Qed.

(** Induction on a string three characters at a time, as [btoa] reads it. *)
Lemma string_ind3 (P : string -> Prop) :
  P EmptyString ->
  (forall a, P (String a EmptyString)) ->
  (forall a b, P (String a (String b EmptyString))) ->
  (forall a b c rest, P rest -> P (String a (String b (String c rest)))) ->
  forall s, P s.
Proof.
  intros H0 H1 H2 H3 s.
  assert (H : P s /\ (forall a, P (String a s)) /\ (forall a b, P (String a (String b s)))).
  { induction s as [| x s [IH0 [IH1 IH2]]].
    - repeat split; auto.
    - repeat split; auto. }
  apply H.
Qed.

Lemma sextet_hi (a : Z) : 0 <= a < 256 -> 0 <= Z.shiftr a 2 < 64.
Proof.
  intros Ha. rewrite Z.shiftr_div_pow2 by lia.
  change (2 ^ 2) with 4. split; [apply Z.div_pos; lia | apply Z.div_lt_upper_bound; lia].
Qed.

Lemma sextet_lo_pad (a : Z) : 0 <= a < 256 -> 0 <= Z.shiftl (Z.land a 3) 4 < 64.
Proof.
  intros Ha. rewrite Z.shiftl_mul_pow2 by lia.
  change 3 with (Z.ones 2). rewrite Z.land_ones by lia.
  change (2 ^ 2) with 4. change (2 ^ 4) with 16.
  pose proof (Z.mod_pos_bound a 4). lia.
Qed.

Lemma sextet_mid1 (a b : Z) :
  0 <= a < 256 -> 0 <= b < 256 ->
  0 <= Z.lor (Z.shiftl (Z.land a 3) 4) (Z.shiftr b 4) < 64.
Proof.
  intros Ha Hb.
  pose proof (sextet_lo_pad a Ha) as H1.
  assert (H2 : 0 <= Z.shiftr b 4 < 16).
  { rewrite Z.shiftr_div_pow2 by lia. change (2 ^ 4) with 16.
    split; [apply Z.div_pos; lia | apply Z.div_lt_upper_bound; lia]. }
  assert (H3 : Z.shiftl (Z.land a 3) 4 <= 48).
  { rewrite Z.shiftl_mul_pow2 by lia.
    change 3 with (Z.ones 2). rewrite Z.land_ones by lia.
    change (2 ^ 2) with 4. change (2 ^ 4) with 16.
    pose proof (Z.mod_pos_bound a 4). lia. }
  pose proof (Z.add_lor_land (Z.shiftl (Z.land a 3) 4) (Z.shiftr b 4)) as Hsum.
  assert (0 <= Z.land (Z.shiftl (Z.land a 3) 4) (Z.shiftr b 4))
    by (apply Z.land_nonneg; lia).
  assert (0 <= Z.lor (Z.shiftl (Z.land a 3) 4) (Z.shiftr b 4))
    by (apply Z.lor_nonneg; lia).
  lia.
Qed.

Lemma sextet_mid2_pad (b : Z) : 0 <= b < 256 -> 0 <= Z.shiftl (Z.land b 15) 2 < 64.
Proof.
  intros Hb. rewrite Z.shiftl_mul_pow2 by lia.
  change 15 with (Z.ones 4). rewrite Z.land_ones by lia.
  change (2 ^ 2) with 4. change (2 ^ 4) with 16.
  pose proof (Z.mod_pos_bound b 16). lia.
Qed.

Lemma sextet_mid2 (b c : Z) :
  0 <= b < 256 -> 0 <= c < 256 ->
  0 <= Z.lor (Z.shiftl (Z.land b 15) 2) (Z.shiftr c 6) < 64.
Proof.
  intros Hb Hc.
  assert (H2 : 0 <= Z.shiftr c 6 < 4).
  { rewrite Z.shiftr_div_pow2 by lia. change (2 ^ 6) with 64.
    split; [apply Z.div_pos; lia | apply Z.div_lt_upper_bound; lia]. }
  assert (H3 : 0 <= Z.shiftl (Z.land b 15) 2 <= 60).
  { rewrite Z.shiftl_mul_pow2 by lia.
    change 15 with (Z.ones 4). rewrite Z.land_ones by lia.
    change (2 ^ 2) with 4. change (2 ^ 4) with 16.
    pose proof (Z.mod_pos_bound b 16). lia. }
  pose proof (Z.add_lor_land (Z.shiftl (Z.land b 15) 2) (Z.shiftr c 6)) as Hsum.
  assert (0 <= Z.land (Z.shiftl (Z.land b 15) 2) (Z.shiftr c 6))
    by (apply Z.land_nonneg; lia).
  assert (0 <= Z.lor (Z.shiftl (Z.land b 15) 2) (Z.shiftr c 6))
    by (apply Z.lor_nonneg; lia).
  lia.
Qed.

Lemma sextet_last (c : Z) : 0 <= c < 256 -> 0 <= Z.land c 63 < 64.
Proof.
  intros Hc. change 63 with (Z.ones 6). rewrite Z.land_ones by lia.
  change (2 ^ 6) with 64. apply Z.mod_pos_bound. lia.
Qed.

Lemma replace_both_cons (x : ascii) (s : string) :
  replace_all "/" "_" (replace_all "+" "-" (String x s))
  = String (url_safe x) (replace_all "/" "_" (replace_all "+" "-" s)).
Proof. reflexivity. Qed.

Ltac sextet_facts :=
  repeat match goal with
  | a : ascii |- _ =>
      lazymatch goal with
      | _ : 0 <= Base64.code a < 256 |- _ => fail
      | _ => pose proof (code_bounded a)
      end
  end.

(** The encoder on a binary string of any length: a last group of one or
    two characters loses its padding, so [n] input characters give
    [(4 n + 2) / 3] output characters, all of the base64url alphabet. *)
Lemma encode_binary_shape (binary : string) :
  let out := strip_trailing_eq
               (replace_all "/" "_" (replace_all "+" "-" (Base64.btoa binary))) in
  String.length out = ((4 * String.length binary + 2) / 3)%nat
  /\ string_forall base64url_char out = true.
Proof.
  induction binary as [| a | a b | a b c rest [IHlen IHall]] using string_ind3;
    cbv zeta; sextet_facts.
  - split; reflexivity.
  - cbn [Base64.btoa]. rewrite !replace_both_cons.
    destruct (sextet_url_safe _ (sextet_hi _ H)) as [U1 N1].
    destruct (sextet_url_safe _ (sextet_lo_pad _ H)) as [U2 N2].
    rewrite !strip_trailing_eq_cons by assumption.
    cbn. rewrite U1, U2. split; reflexivity.
  - cbn [Base64.btoa]. rewrite !replace_both_cons.
    destruct (sextet_url_safe _ (sextet_hi _ H0)) as [U1 N1].
    destruct (sextet_url_safe _ (sextet_mid1 _ _ H0 H)) as [U2 N2].
    destruct (sextet_url_safe _ (sextet_mid2_pad _ H)) as [U3 N3].
    rewrite !strip_trailing_eq_cons by assumption.
    cbn. rewrite U1, U2, U3. split; reflexivity.
  - cbn [Base64.btoa]. rewrite !replace_both_cons.
    destruct (sextet_url_safe _ (sextet_hi _ H1)) as [U1 N1].
    destruct (sextet_url_safe _ (sextet_mid1 _ _ H1 H0)) as [U2 N2].
    destruct (sextet_url_safe _ (sextet_mid2 _ _ H0 H)) as [U3 N3].
    destruct (sextet_url_safe _ (sextet_last _ H)) as [U4 N4].
    rewrite !strip_trailing_eq_cons by assumption.
    cbn [String.length string_forall].
    rewrite U1, U2, U3, U4, IHall, IHlen. split; [| reflexivity].
    replace (4 * S (S (S (String.length rest))) + 2)%nat
      with ((4 * String.length rest + 2) + 4 * 3)%nat by lia.
    rewrite Nat.div_add by lia. lia.
Qed.

Lemma string_length_append (s1 s2 : string) :
  String.length (s1 ++ s2) = (String.length s1 + String.length s2)%nat.
Proof.
  induction s1 as [| c s1 IH]; simpl; [reflexivity | rewrite IH; reflexivity].
Qed.

Lemma binary_of_bytes_length (bytes : list Z) (binary : string) :
  String.length (binary_of_bytes binary bytes)
  = (String.length binary + List.length bytes)%nat.
Proof.
  revert binary. induction bytes as [| b bytes IH]; intros binary; simpl.
  - lia.
  - rewrite IH, string_length_append. simpl. lia.
Qed.

Lemma base64UrlEncode_shape (bytes : list Z) :
  String.length (base64UrlEncode bytes) = ((4 * List.length bytes + 2) / 3)%nat
  /\ string_forall base64url_char (base64UrlEncode bytes) = true.
Proof.
  unfold base64UrlEncode. cbv zeta.
  destruct (encode_binary_shape (binary_of_bytes "" bytes)) as [Hlen Hall].
  cbv zeta in Hlen, Hall.
  rewrite binary_of_bytes_length in Hlen. simpl String.length in Hlen.
  split; [rewrite Hlen; reflexivity | exact Hall].
Qed.

(** C9. [generateCodeVerifier()] returns, whatever the 32 random bytes are,
    a string of exactly 43 characters, each from the base64url alphabet
    (so without [=] padding); 43 lies in the range 43..128 that PKCE asks
    for. *)
Theorem generateCodeVerifier_43_base64url (source : nat -> Z) :
  String.length (generateCodeVerifier source) = 43%nat
  /\ string_forall base64url_char (generateCodeVerifier source) = true
  /\ (43 <= String.length (generateCodeVerifier source) <= 128)%nat.
Proof.
  unfold generateCodeVerifier. cbv zeta.
  destruct (base64UrlEncode_shape (getRandomValues source 32)) as [Hlen Hall].
  assert (Hn : List.length (getRandomValues source 32) = 32%nat).
  { unfold getRandomValues. rewrite List.length_map, List.length_seq. reflexivity. }
  rewrite Hn in Hlen. change ((4 * 32 + 2) / 3)%nat with 43%nat in Hlen.
  rewrite Hlen. repeat split; [exact Hall | lia | lia].
Qed.

(** *** The callback handler *)

Ltac js_unfold :=
  cbv [bind ret throw try_catch try_finally modify reads
       localStorage.getItem localStorage.setItem localStorage.removeItem
       sessionStorage.getItem sessionStorage.setItem sessionStorage.removeItem
       console.log console.warn console.error
       setAccessToken setIsAuthenticated setIsLoading
       setIsProcessingCallback setHasRedirected history_replaceState
       fetch_post Response_text Response_json btoa].

Lemma fetch_count_app (l1 l2 : list Event) :
  fetch_count (l1 ++ l2)%list = (fetch_count l1 + fetch_count l2)%nat.
Proof.
  unfold fetch_count. rewrite List.filter_app, List.length_app. reflexivity.
Qed.

Lemma fetch_count_one (e : Event) :
  fetch_count [e] = if is_fetch e then 1%nat else 0%nat.
Proof. unfold fetch_count. simpl. destruct (is_fetch e); reflexivity. Qed.

(** C1. When [state] differs from the value stored under [oauth_state]
    (a missing value included), [handleAuthCallback] returns [false] and
    sends no request to the token endpoint. *)
Theorem handleAuthCallback_state_mismatch
    (B : Browser) (code state : string) (w : World) :
  localStorage w !! "oauth_state" <> Some state ->
  fst (handleAuthCallback B code state w) = Normal false
  /\ fetch_count (events (snd (handleAuthCallback B code state w)))
     = fetch_count (events w).
Proof.
  intros Hne. unfold handleAuthCallback. js_unfold.
  rewrite bool_decide_false by congruence.
  simpl. split; [reflexivity |].
  rewrite fetch_count_app, fetch_count_one. simpl. lia.
Qed.

Lemma handleAuthCallback_state_mismatch_witness :
  let B := Examples.browser Examples.configured Examples.endpoint_ok in
  fst (handleAuthCallback B "abc" "forged" Examples.awaiting_callback) = Normal false
  /\ fetch_count (events (snd (handleAuthCallback B "abc" "forged" Examples.awaiting_callback)))
     = fetch_count (events Examples.awaiting_callback).
Proof.
  cbv zeta.
  apply (handleAuthCallback_state_mismatch
           (Examples.browser Examples.configured Examples.endpoint_ok)
           "abc" "forged" Examples.awaiting_callback).
  vm_compute. discriminate.
Defined.

Ltac js_cases :=
  repeat (cbv beta iota; cbn [negb];
          match goal with
          | |- context [if ?c then _ else _] =>
              let H := fresh "Hif" in destruct c eqn:H
          | |- context [match fetch ?B ?u ?h ?b with _ => _ end] =>
              let H := fresh "Hfetch" in destruct (fetch B u h b) eqn:H
          | |- context [match text ?r with _ => _ end] =>
              let H := fresh "Htext" in destruct (text r) eqn:H
          | |- context [match json ?r with _ => _ end] =>
              let H := fresh "Hjson" in destruct (json r) eqn:H
          end).

Ltac world_simpl :=
  cbn [fst snd localStorage sessionStorage session events hasRedirected
       isProcessingCallback pathname search
       set_localStorage set_sessionStorage set_session emit mark_redirected
       isAuthenticated isLoading accessToken] in *.

(** C2, as stated, fails: with a forged [state] the handler returns early
    and both the stored CSRF state and the PKCE verifier are still there. *)
Lemma handleAuthCallback_mismatch_keeps_secrets :
  let B := Examples.browser Examples.configured Examples.endpoint_ok in
  let w' := snd (handleAuthCallback B "abc" "forged" Examples.awaiting_callback) in
  fst (handleAuthCallback B "abc" "forged" Examples.awaiting_callback) = Normal false
  /\ localStorage w' !! "oauth_state" = Some "xyz"
  /\ sessionStorage w' !! "pkce_verifier" = Some "ver"
  /\ ~ flow_secrets_cleared w'.
Proof.
  cbv zeta. repeat split; try (vm_compute; reflexivity).
  intros [H _]. vm_compute in H. discriminate.
Qed.

(** C2, amended. When [state] equals the stored CSRF token, one invocation
    of [handleAuthCallback], whether it returns true or false, leaves
    neither [oauth_state] nor a (non-empty) [pkce_verifier] in storage;
    when [state] does not match, both keys keep what they held. *)
Theorem handleAuthCallback_consumes_secrets_on_match
    (B : Browser) (code state : string) (w : World) :
  let w' := snd (handleAuthCallback B code state w) in
  (localStorage w !! "oauth_state" = Some state ->
   sessionStorage w !! "pkce_verifier" <> Some "" ->
   flow_secrets_cleared w')
  /\ (localStorage w !! "oauth_state" <> Some state ->
      localStorage w' !! "oauth_state" = localStorage w !! "oauth_state"
      /\ sessionStorage w' !! "pkce_verifier" = sessionStorage w !! "pkce_verifier").
Proof.
  cbv zeta. split.
  - intros Hmatch Hver. unfold handleAuthCallback, flow_secrets_cleared. js_unfold.
    rewrite bool_decide_true by congruence. cbv [negb]. world_simpl.
    destruct (sessionStorage w !! "pkce_verifier") as [v |] eqn:Hv.
    + assert (Hv' : truthy (Some v) = true).
      { simpl. destruct (String.eqb_spec v ""); [congruence | reflexivity]. }
      rewrite Hv'.
      js_cases; world_simpl; split;
        rewrite ?lookup_insert_ne, ?lookup_delete_ne by discriminate;
        apply lookup_delete_eq.
    + cbn [truthy].
      js_cases; world_simpl; split;
        rewrite ?lookup_insert_ne, ?lookup_delete_ne by discriminate;
        first [apply lookup_delete_eq | exact Hv].
  - intros Hne. unfold handleAuthCallback. js_unfold.
    rewrite bool_decide_false by congruence. cbv [negb]. world_simpl.
    split; [reflexivity |]. apply lookup_delete_ne. discriminate.
Qed.

Lemma handleAuthCallback_consumes_secrets_on_match_witness :
  flow_secrets_cleared
    (snd (handleAuthCallback (Examples.browser Examples.configured Examples.endpoint_down)
                             "abc" "xyz" Examples.awaiting_callback)).
Proof.
  apply (proj1 (handleAuthCallback_consumes_secrets_on_match
                  (Examples.browser Examples.configured Examples.endpoint_down)
                  "abc" "xyz" Examples.awaiting_callback)).
  - vm_compute. reflexivity.
  - vm_compute. discriminate.
Defined.

(** With a matching [state] and credentials that can be encoded, the
    handler sends exactly one POST, and it is the request that
    [exchange_answer] describes. *)
Lemma handleAuthCallback_sends_exchange_request
    (B : Browser) (code state : string) (w : World) :
  localStorage w !! "oauth_state" = Some state ->
  credentials_encodable B = true ->
  exists later,
    events (snd (handleAuthCallback B code state w))
    = (events w
       ++ FetchPost (tokenUrl (OAUTH_CONFIG B)) (exchange_headers B)
            (URLSearchParams_toString B
               (exchange_params B code (sessionStorage w !! "pkce_verifier")))
          :: later)%list
    /\ fetch_count later = 0%nat.
Proof.
  intros Hstate.
  unfold credentials_encodable, exchange_headers, exchange_params, handleAuthCallback.
  js_unfold.
  rewrite bool_decide_true by congruence. cbn [negb]. world_simpl.
  js_cases; try discriminate; world_simpl; cbn [negb orb];
    intros Henc; try discriminate Henc;
    rewrite <- ?List.app_assoc; cbn [List.app];
    eexists; (split; [reflexivity | reflexivity]).
Qed.

(** With a matching [state], a client secret and credentials that [btoa]
    rejects, the handler fails before any request. *)
Lemma handleAuthCallback_unencodable_run
    (B : Browser) (code state : string) (w : World) :
  localStorage w !! "oauth_state" = Some state ->
  credentials_encodable B = false ->
  fst (handleAuthCallback B code state w) = Normal false
  /\ events (snd (handleAuthCallback B code state w))
     = (events w ++ [ConsoleError "Error during token exchange:"])%list.
Proof.
  intros Hstate.
  unfold credentials_encodable, handleAuthCallback.
  js_unfold.
  rewrite bool_decide_true by congruence. cbn [negb]. world_simpl.
  js_cases; try discriminate; world_simpl; cbn [negb orb];
    intros Henc; try discriminate Henc;
    split; reflexivity.
Qed.

(** C3. When the token exchange fails (the POST answers with a non-success
    status, or the request or the parsing of the answer throws),
    [handleAuthCallback] returns [false]; the session state and the four
    persisted token fields are what they were before the call. *)
Theorem handleAuthCallback_failure_leaves_session
    (B : Browser) (code state : string) (w : World) :
  exchange_fails (exchange_answer B code w) = true ->
  let w' := snd (handleAuthCallback B code state w) in
  fst (handleAuthCallback B code state w) = Normal false
  /\ session w' = session w
  /\ (forall k, In k token_fields -> localStorage w' !! k = localStorage w !! k).
Proof.
  cbv zeta.
  unfold exchange_answer, exchange_headers, exchange_params, exchange_fails,
         handleAuthCallback.
  js_unfold. world_simpl.
  js_cases; try discriminate; world_simpl; intros Hfail; try discriminate Hfail;
    (split; [reflexivity | split; [reflexivity |]]);
    intros k Hk; cbn [In token_fields] in Hk;
    try reflexivity;
    (destruct Hk as [<- | [<- | [<- | [<- | []]]]];
     apply lookup_delete_ne; discriminate).
Qed.

Lemma handleAuthCallback_failure_leaves_session_witness :
  let B := Examples.browser Examples.configured Examples.endpoint_down in
  let w := Examples.awaiting_callback in
  let w' := snd (handleAuthCallback B "abc" "xyz" w) in
  fst (handleAuthCallback B "abc" "xyz" w) = Normal false
  /\ session w' = session w
  /\ (forall k, In k token_fields -> localStorage w' !! k = localStorage w !! k).
Proof.
  cbv zeta.
  apply (handleAuthCallback_failure_leaves_session
           (Examples.browser Examples.configured Examples.endpoint_down)
           "abc" "xyz" Examples.awaiting_callback).
  reflexivity.
Defined.

(** C4. On every exit path of [handleAuthCallback] (state mismatch,
    non-success answer, an error thrown during the exchange, success) the
    function returns a boolean and [isLoggingIn] is no longer in session
    storage. *)
Theorem handleAuthCallback_clears_isLoggingIn
    (B : Browser) (code state : string) (w : World) :
  (exists success, fst (handleAuthCallback B code state w) = Normal success)
  /\ sessionStorage (snd (handleAuthCallback B code state w)) !! "isLoggingIn" = None.
Proof.
  unfold handleAuthCallback. js_unfold.
  js_cases; world_simpl; (split; [eexists; reflexivity | apply lookup_delete_eq]).
Qed.

(** *** Numbers written to storage read back *)

Ltac eval_digit :=
  match goal with
  | |- context [digit_value ?c] =>
      let v := eval vm_compute in (digit_value c) in
      change (digit_value c) with v
  end.

Ltac uint_induction d IH :=
  induction d as [| d IH | d IH | d IH | d IH | d IH | d IH | d IH | d IH | d IH | d IH].

Lemma parse_digits_string_of_uint (d : Decimal.uint) (acc : option Z) :
  d <> Decimal.Nil ->
  parse_digits acc (NilEmpty.string_of_uint d) = Some (digits_value (default 0 acc) d).
Proof.
  revert acc. uint_induction d IH; intros acc Hd; [contradiction | ..];
    cbn [NilEmpty.string_of_uint parse_digits digits_value]; eval_digit; cbv iota beta;
    (destruct d; [reflexivity | apply IH; discriminate ..]).
Qed.

Lemma of_uint_acc_value (d : Decimal.uint) (acc : positive) :
  Z.pos (Pos.of_uint_acc d acc) = digits_value (Z.pos acc) d.
Proof.
  revert acc. uint_induction d IH; intros acc; cbn [Pos.of_uint_acc digits_value];
    try reflexivity; rewrite IH; f_equal; lia.
Qed.

Lemma of_uint_value (d : Decimal.uint) :
  Z.of_N (Pos.of_uint d) = digits_value 0 d.
Proof.
  uint_induction d IH; cbn [Pos.of_uint digits_value]; try reflexivity;
    try (cbn [Z.of_N]; rewrite of_uint_acc_value; reflexivity).
  exact IH.
Qed.

Lemma to_uint_value (p : positive) : digits_value 0 (Pos.to_uint p) = Z.pos p.
Proof. rewrite <- of_uint_value, DecimalPos.Unsigned.of_to. reflexivity. Qed.

Lemma string_of_uint_nonnil (d : Decimal.uint) :
  d <> Decimal.Nil -> NilZero.string_of_uint d = NilEmpty.string_of_uint d.
Proof. destruct d; [contradiction | reflexivity ..]. Qed.

Lemma parseInt_uint (d : Decimal.uint) :
  d <> Decimal.Nil -> parseInt (NilEmpty.string_of_uint d) = Some (digits_value 0 d).
Proof.
  intros Hd.
  pose proof (parse_digits_string_of_uint d None Hd) as Hp.
  destruct d; try contradiction; unfold parseInt;
    cbn [NilEmpty.string_of_uint] in *;
    (match goal with
     | |- context [skip_whitespace (String ?c ?r)] =>
         change (skip_whitespace (String c r)) with (String c r)
     end);
    cbv iota beta; rewrite Hp; cbn [default]; f_equal; lia.
Qed.

(** [parseInt(n.toString(), 10)] is [n], for every integer [n]. *)
Lemma parseInt_decimal_string (n : Z) : parseInt (decimal_string n) = Some n.
Proof.
  unfold decimal_string.
  destruct n as [| p | p]; [reflexivity | ..];
    cbn [Z.to_int NilZero.string_of_int];
    pose proof (DecimalPos.Unsigned.to_uint_nonnil p) as Hnil;
    rewrite string_of_uint_nonnil by assumption.
  - rewrite parseInt_uint by assumption. rewrite to_uint_value. reflexivity.
  - unfold parseInt.
    change (skip_whitespace (String "-" ?r)) with (String "-"%char r).
    cbv iota beta.
    rewrite parse_digits_string_of_uint by assumption.
    cbn [default]. rewrite to_uint_value. reflexivity.
Qed.

Lemma to_double_safe (B : Browser) (n : Z) :
  safe_integer n = true -> to_double B n = n.
Proof. unfold to_double. intros ->. reflexivity. Qed.

Lemma Number_toString_safe (B : Browser) (n : Z) :
  safe_integer n = true -> Number_toString B n = decimal_string n.
Proof. unfold Number_toString. intros ->. reflexivity. Qed.

(** Within the safe integers the expiry is the exact sum. *)
Lemma expiry_exact_value (B : Browser) (tokens : TokenResponse) :
  expiry_exact B tokens = true ->
  number_add B (Date_now B) (number_mul B (expires_in tokens) 1000)
  = Date_now B + expires_in tokens * 1000
  /\ safe_integer (Date_now B + expires_in tokens * 1000) = true.
Proof.
  unfold expiry_exact, number_add, number_mul. intros H.
  apply andb_true_iff in H as [Hmul Hadd].
  rewrite (to_double_safe B _ Hmul), (to_double_safe B _ Hadd).
  split; [reflexivity | exact Hadd].
Qed.

(** C5. With a matching [state] and a success answer that carries
    [access_token], [id_token] and [expires_in] (the request was sent, so
    the credentials could be encoded), [handleAuthCallback] returns
    [true]; it stores [access_token] and [id_token], stores [refresh_token]
    when the answer has one and leaves that key alone otherwise, stores
    under [token_expiry] the string of the number
    [Date.now() + expires_in * 1000], and the session becomes authenticated
    with the returned access token. While product and sum are safe
    integers, that number is the exact sum, the string is its decimal form
    and [parseInt] reads the sum back. *)
Theorem handleAuthCallback_success
    (B : Browser) (code state : string) (w : World)
    (response : Response) (tokens : TokenResponse) :
  localStorage w !! "oauth_state" = Some state ->
  credentials_encodable B = true ->
  exchange_answer B code w = FetchResolves response ->
  ok response = true ->
  json response = Some tokens ->
  let w' := snd (handleAuthCallback B code state w) in
  let expiryTime := number_add B (Date_now B) (number_mul B (expires_in tokens) 1000) in
  fst (handleAuthCallback B code state w) = Normal true
  /\ localStorage w' !! "access_token" = Some (access_token tokens)
  /\ localStorage w' !! "id_token" = Some (id_token tokens)
  /\ localStorage w' !! "refresh_token"
     = (if truthy (refresh_token tokens) then refresh_token tokens
        else localStorage w !! "refresh_token")
  /\ localStorage w' !! "token_expiry" = Some (Number_toString B expiryTime)
  /\ (expiry_exact B tokens = true ->
      expiryTime = Date_now B + expires_in tokens * 1000
      /\ localStorage w' !! "token_expiry"
         = Some (decimal_string (Date_now B + expires_in tokens * 1000))
      /\ (parseInt <$> localStorage w' !! "token_expiry")
         = Some (Some (Date_now B + expires_in tokens * 1000)))
  /\ session w'
     = {| isAuthenticated := true;
          isLoading := isLoading (session w);
          accessToken := Some (access_token tokens) |}.
Proof.
  intros Hstate. cbv zeta.
  unfold credentials_encodable, exchange_answer, exchange_headers, exchange_params,
         handleAuthCallback.
  js_unfold.
  rewrite bool_decide_true by congruence. cbn [negb]. world_simpl.
  js_cases; try discriminate; world_simpl; cbn [negb orb];
    intros Henc Hanswer Hok Hparsed;
    try discriminate Henc;
    inversion Hanswer; subst;
    try congruence;
    try (rewrite Hok in *; discriminate);
    repeat match goal with
           | H : json _ = Some _, H' : json _ = Some _ |- _ =>
               rewrite H in H'; inversion H'; subst; clear H'
           end;
    (split; [reflexivity |]);
    (split; [rewrite ?lookup_insert_ne by discriminate; apply lookup_insert_eq |]);
    (split; [rewrite ?lookup_insert_ne by discriminate; apply lookup_insert_eq |]);
    (split; [rewrite ?lookup_insert_ne by discriminate;
             rewrite ?lookup_insert_eq;
             rewrite ?lookup_delete_ne by discriminate;
             try reflexivity |]);
    try (split; [apply lookup_insert_eq |]);
    try (split; [| reflexivity]);
    try (intros Hexact;
         destruct (expiry_exact_value B _ Hexact) as [Hvalue Hsafe];
         rewrite lookup_insert_eq, Hvalue, (Number_toString_safe B _ Hsafe);
         cbn [fmap option_fmap option_map];
         rewrite parseInt_decimal_string;
         split; [reflexivity | split; reflexivity]).
  all: match goal with
       | H : truthy (refresh_token ?t) = true |- _ =>
           destruct (refresh_token t); [reflexivity | discriminate H]
       end.
Qed.

Lemma handleAuthCallback_success_witness :
  let B := Examples.browser Examples.configured Examples.endpoint_ok in
  let w' := snd (handleAuthCallback B "abc" "xyz" Examples.awaiting_callback) in
  localStorage w' !! "token_expiry" = Some "3601000"
  /\ (parseInt <$> localStorage w' !! "token_expiry") = Some (Some 3601000).
Proof.
  cbv zeta.
  pose proof (handleAuthCallback_success
                (Examples.browser Examples.configured Examples.endpoint_ok)
                "abc" "xyz" Examples.awaiting_callback
                {| ok := true; text := None; json := Some Examples.tokens_A |}
                Examples.tokens_A) as H.
  cbv zeta in H.
  destruct H as (_ & _ & _ & _ & _ & Hexact & _).
  - vm_compute. reflexivity.
  - vm_compute. reflexivity.
  - reflexivity.
  - reflexivity.
  - reflexivity.
  - destruct Hexact as (_ & Hstored & Hread); [vm_compute; reflexivity |].
    split; [exact Hstored | exact Hread].
Defined.

(** Beyond the safe integers the stored string is the platform's: with
    [expires_in] = 10^18 and a platform that prints the sum as [1e+21],
    that is what is stored, and [parseInt] reads 1 from it. *)
Lemma handleAuthCallback_expiry_beyond_safe_integers :
  let tokens := {| access_token := "A"; id_token := "I"; refresh_token := None;
                   expires_in := 10 ^ 18; token_type := "Bearer" |} in
  let B := Examples.browser Examples.configured
             (FetchResolves {| ok := true; text := None; json := Some tokens |}) in
  let w' := snd (handleAuthCallback B "abc" "xyz" Examples.awaiting_callback) in
  expiry_exact B tokens = false
  /\ localStorage w' !! "token_expiry" = Some "1e+21"
  /\ (parseInt <$> localStorage w' !! "token_expiry") = Some (Some 1).
Proof.
  cbv zeta. repeat split; vm_compute; reflexivity.
Qed.

(** *** Loading persisted tokens on mount *)

Lemma truthy_Some (s : string) : s <> "" -> truthy (Some s) = true.
Proof.
  intros Hs. simpl. destruct (String.eqb_spec s ""); [contradiction | reflexivity].
Qed.

Lemma parseInt_nonempty (s : string) (t : Z) : parseInt s = Some t -> s <> "".
Proof. intros Hp ->. discriminate Hp. Qed.

(** C6, as stated, fails: an expired record whose [access_token] is the
    empty string (a value the callback handler stores as it gets it) does
    not pass the [token && tokenExpiry] test, so nothing is removed and all
    four token fields are still in durable storage. *)
Lemma load_tokens_keeps_expired_record_with_empty_token :
  let B := Examples.browser Examples.configured Examples.endpoint_ok in
  let w := Examples.world
             (<["access_token" := ""]> (<["id_token" := "I"]>
               (<["refresh_token" := "R"]> (<["token_expiry" := "1000"]> ∅)))) ∅ in
  let w' := snd (load_tokens B w) in
  parseInt "1000" = Some (Date_now B)
  /\ localStorage w' !! "access_token" = Some ""
  /\ localStorage w' !! "id_token" = Some "I"
  /\ localStorage w' !! "refresh_token" = Some "R"
  /\ localStorage w' !! "token_expiry" = Some "1000"
  /\ ~ (forall k, In k token_fields -> localStorage w' !! k = None).
Proof.
  cbv zeta. repeat split; try (vm_compute; reflexivity).
  intros Hall. specialize (Hall "token_expiry" ltac:(cbn; tauto)).
  vm_compute in Hall. discriminate Hall.
Qed.

(** C6, amended. For a persisted token record with a non-empty
    [access_token] whose [token_expiry] is at or before the current time,
    the load on mount does not authenticate the session with the stored
    token, and afterwards none of the four token fields is in durable
    storage. *)
Theorem load_tokens_purges_expired
    (B : Browser) (w : World) (token tokenExpiry : string) (expiryTime : Z) :
  localStorage w !! "access_token" = Some token ->
  token <> "" ->
  localStorage w !! "token_expiry" = Some tokenExpiry ->
  parseInt tokenExpiry = Some expiryTime ->
  expiryTime <= Date_now B ->
  let w' := snd (load_tokens B w) in
  fst (load_tokens B w) = Normal tt
  /\ isAuthenticated (session w') = isAuthenticated (session w)
  /\ accessToken (session w') = accessToken (session w)
  /\ (forall k, In k token_fields -> localStorage w' !! k = None).
Proof.
  intros Htoken Hne Hexpiry Hparse Hle. cbv zeta.
  unfold load_tokens. js_unfold. world_simpl.
  rewrite Htoken, Hexpiry, (truthy_Some token Hne),
          (truthy_Some tokenExpiry (parseInt_nonempty _ _ Hparse)).
  cbn [andb from_option id]. rewrite Hparse. cbn [lt_number].
  destruct (Z.ltb_spec (Date_now B) expiryTime) as [Hlt | _]; [lia |].
  world_simpl. repeat split.
  intros k Hk. cbn [In token_fields] in Hk.
  destruct Hk as [<- | [<- | [<- | [<- | []]]]];
    rewrite ?lookup_delete_eq;
    rewrite ?lookup_delete_ne by discriminate;
    rewrite ?lookup_delete_eq;
    rewrite ?lookup_delete_ne by discriminate;
    rewrite ?lookup_delete_eq;
    rewrite ?lookup_delete_ne by discriminate;
    rewrite ?lookup_delete_eq; reflexivity.
Qed.

Lemma load_tokens_purges_expired_witness :
  let B := Examples.browser Examples.configured Examples.endpoint_ok in
  let w := Examples.world
             (<["access_token" := "A"]> (<["id_token" := "I"]>
               (<["refresh_token" := "R"]> (<["token_expiry" := "1000"]> ∅)))) ∅ in
  let w' := snd (load_tokens B w) in
  fst (load_tokens B w) = Normal tt
  /\ isAuthenticated (session w') = false
  /\ accessToken (session w') = None
  /\ (forall k, In k token_fields -> localStorage w' !! k = None).
Proof.
  cbv zeta.
  apply (load_tokens_purges_expired
           (Examples.browser Examples.configured Examples.endpoint_ok)
           (Examples.world
             (<["access_token" := "A"]> (<["id_token" := "I"]>
               (<["refresh_token" := "R"]> (<["token_expiry" := "1000"]> ∅)))) ∅)
           "A" "1000" 1000).
  - vm_compute. reflexivity.
  - discriminate.
  - vm_compute. reflexivity.
  - vm_compute. reflexivity.
  - vm_compute. discriminate.
Defined.

(** C10. With a partial token record in durable storage ([access_token]
    without [token_expiry], or [token_expiry] without [access_token]) the
    load on mount leaves the session unauthenticated, clears the loading
    flag and removes nothing: durable storage is what it was. *)
Theorem load_tokens_partial_record (B : Browser) (w : World) :
  (is_Some (localStorage w !! "access_token") /\ localStorage w !! "token_expiry" = None)
  \/ (is_Some (localStorage w !! "token_expiry") /\ localStorage w !! "access_token" = None) ->
  let w' := snd (load_tokens B w) in
  fst (load_tokens B w) = Normal tt
  /\ session w'
     = {| isAuthenticated := isAuthenticated (session w);
          isLoading := false;
          accessToken := accessToken (session w) |}
  /\ (session w = initial_session ->
      isAuthenticated (session w') = false /\ accessToken (session w') = None)
  /\ localStorage w' = localStorage w
  /\ sessionStorage w' = sessionStorage w.
Proof.
  intros Hpartial. cbv zeta.
  unfold load_tokens. js_unfold. world_simpl.
  assert (Hcond : truthy (localStorage w !! "access_token")
                  && truthy (localStorage w !! "token_expiry") = false).
  { destruct Hpartial as [[_ ->] | [_ ->]]; cbn [truthy].
    - apply andb_false_r.
    - reflexivity. }
  rewrite Hcond. world_simpl.
  repeat split; try reflexivity;
    match goal with H : session w = initial_session |- _ => rewrite H; reflexivity end.
Qed.

Lemma load_tokens_partial_record_witness :
  let B := Examples.browser Examples.configured Examples.endpoint_ok in
  let w := Examples.world (<["access_token" := "A"]> (<["id_token" := "I"]> ∅)) ∅ in
  session (snd (load_tokens B w))
  = {| isAuthenticated := false; isLoading := false; accessToken := None |}
  /\ localStorage (snd (load_tokens B w)) = localStorage w.
Proof.
  cbv zeta.
  pose proof (load_tokens_partial_record
           (Examples.browser Examples.configured Examples.endpoint_ok)
           (Examples.world (<["access_token" := "A"]> (<["id_token" := "I"]> ∅)) ∅)) as H.
  cbv zeta in H.
  destruct H as (_ & Hs & _ & Hl & _).
  - left. split; [eexists; vm_compute; reflexivity | vm_compute; reflexivity].
  - split; [exact Hs | exact Hl].
Defined.

(** *** Starting a login *)

Lemma navigation_count_app (l1 l2 : list Event) :
  navigation_count (l1 ++ l2)%list = (navigation_count l1 + navigation_count l2)%nat.
Proof.
  unfold navigation_count. rewrite List.filter_app, List.length_app. reflexivity.
Qed.

(** C7, as stated, fails: without a redirect URI [login()] has already
    written a new CSRF state token under [oauth_state] when it aborts. *)
Lemma login_without_redirect_uri_persists_state :
  let B := Examples.browser ∅ Examples.endpoint_ok in
  let w := Examples.world ∅ ∅ in
  redirectUri (OAUTH_CONFIG B) = ""
  /\ localStorage w !! "oauth_state" = None
  /\ localStorage (snd (login B w)) !! "oauth_state" = Some "k3j9x".
Proof.
  cbv zeta. repeat split; vm_compute; reflexivity.
Qed.

(** C7, amended. When the configured redirect URI is absent, [login()]
    aborts without navigating, logs an error and clears [isLoggingIn], and
    no PKCE verifier is persisted; the CSRF state token, generated before
    the redirect URI is looked at, has been written to [oauth_state]. *)
Theorem login_without_redirect_uri (B : Browser) (w : World) :
  redirectUri (OAUTH_CONFIG B) = "" ->
  let w' := snd (login B w) in
  fst (login B w) = Normal tt
  /\ navigation_count (events w') = navigation_count (events w)
  /\ sessionStorage w' !! "isLoggingIn" = None
  /\ sessionStorage w' !! "pkce_verifier" = sessionStorage w !! "pkce_verifier"
  /\ localStorage w' !! "oauth_state" = Some (Math_random_state B).
Proof.
  intros Huri. cbv zeta. unfold login. js_unfold. rewrite Huri.
  cbn [truthy String.eqb negb]. world_simpl.
  repeat split.
  - rewrite navigation_count_app. unfold navigation_count at 2. simpl. lia.
  - apply lookup_delete_eq.
  - rewrite lookup_delete_ne by discriminate.
    rewrite lookup_insert_ne by discriminate. reflexivity.
  - apply lookup_insert_eq.
Qed.

Lemma login_without_redirect_uri_witness :
  let B := Examples.browser ∅ Examples.endpoint_ok in
  let w := Examples.world ∅ (<["pkce_verifier" := "old"]> ∅) in
  let w' := snd (login B w) in
  fst (login B w) = Normal tt
  /\ navigation_count (events w') = navigation_count (events w)
  /\ sessionStorage w' !! "isLoggingIn" = None
  /\ sessionStorage w' !! "pkce_verifier" = sessionStorage w !! "pkce_verifier"
  /\ localStorage w' !! "oauth_state" = Some "k3j9x".
Proof.
  cbv zeta.
  apply (login_without_redirect_uri
           (Examples.browser ∅ Examples.endpoint_ok)
           (Examples.world ∅ (<["pkce_verifier" := "old"]> ∅))).
  vm_compute. reflexivity.
Defined.

(** *** The route guard *)

(** C8. On a render without callback parameters in the URL, with loading
    finished, the session unauthenticated and no redirect so far: when
    [justLoggedOut] is set, the guard removes it and stops, whatever
    [login] is; otherwise, when [isLoggingIn] is set, the guard stops,
    whatever [login] is; [login()] runs exactly when neither marker is
    set. *)
Theorem processCallback_login_gate (auth : AuthContextType) (w : World) :
  truthy (params_get "code" (search w)) && truthy (params_get "state" (search w)) = false ->
  ctx_isLoading auth = false ->
  ctx_isAuthenticated auth = false ->
  (truthy (sessionStorage w !! "justLoggedOut") = true ->
   processCallback auth false w
   = (Normal tt, mark_redirected (set_sessionStorage (delete "justLoggedOut") w)))
  /\ (truthy (sessionStorage w !! "justLoggedOut") = false ->
      truthy (sessionStorage w !! "isLoggingIn") = true ->
      processCallback auth false w
      = (Normal tt,
         mark_redirected
           (emit (ConsoleLog "Login already in progress, skipping duplicate trigger") w)))
  /\ (truthy (sessionStorage w !! "justLoggedOut") = false ->
      truthy (sessionStorage w !! "isLoggingIn") = false ->
      processCallback auth false w = ctx_login auth (mark_redirected w)).
Proof.
  intros Hparams Hloading Hauth.
  unfold processCallback. js_unfold.
  rewrite Hparams, Hloading, Hauth. cbn [negb andb].
  repeat split.
  - intros ->. reflexivity.
  - intros -> ->. reflexivity.
  - intros -> ->. unfold mark_redirected. destruct (ctx_login auth _); reflexivity.
Qed.

Lemma processCallback_login_gate_witness :
  let B := Examples.browser Examples.configured Examples.endpoint_ok in
  let auth := AuthProvider_value B
                {| isAuthenticated := false; isLoading := false; accessToken := None |} in
  let logged_out := Examples.world ∅ (<["justLoggedOut" := "1"]> ∅) in
  let logging_in := Examples.world ∅ (<["isLoggingIn" := "1"]> ∅) in
  let fresh := Examples.world ∅ ∅ in
  processCallback auth false logged_out
  = (Normal tt, mark_redirected (set_sessionStorage (delete "justLoggedOut") logged_out))
  /\ processCallback auth false logging_in
     = (Normal tt,
        mark_redirected
          (emit (ConsoleLog "Login already in progress, skipping duplicate trigger")
                logging_in))
  /\ processCallback auth false fresh = login B (mark_redirected fresh).
Proof.
  cbv zeta.
  pose (B := Examples.browser Examples.configured Examples.endpoint_ok).
  pose (auth := AuthProvider_value B
                  {| isAuthenticated := false; isLoading := false; accessToken := None |}).
  split; [| split].
  - apply (proj1 (processCallback_login_gate
                    auth (Examples.world ∅ (<["justLoggedOut" := "1"]> ∅))
                    eq_refl eq_refl eq_refl)).
    vm_compute. reflexivity.
  - apply (proj1 (proj2 (processCallback_login_gate
                           auth (Examples.world ∅ (<["isLoggingIn" := "1"]> ∅))
                           eq_refl eq_refl eq_refl)));
      vm_compute; reflexivity.
  - apply (proj2 (proj2 (processCallback_login_gate
                           auth (Examples.world ∅ ∅) eq_refl eq_refl eq_refl)));
      vm_compute; reflexivity.
Defined.


(** ** Further properties of the module *)

(** *** The encoder *)

Lemma string_forall_occurs (P : ascii -> bool) (s : string) (c : ascii) :
  string_forall P s = true -> occurs c s -> P c = true.
Proof.
  unfold occurs. induction s as [| x s IH]; simpl; intros Hall Hin.
  - contradiction.
  - apply andb_true_iff in Hall as [Hx Hs].
    destruct Hin as [<- | Hin]; [exact Hx | exact (IH Hs Hin)].
Qed.

(** X1. For every byte sequence, [base64UrlEncode] gives [(4 n + 2) / 3]
    characters for [n] bytes, and none of them is [+], [/] or the padding
    [=]: the result can be put into a URL as it is. *)
Theorem base64UrlEncode_unpadded_url_safe (bytes : list Z) (c : ascii) :
  String.length (base64UrlEncode bytes) = ((4 * List.length bytes + 2) / 3)%nat
  /\ (occurs c (base64UrlEncode bytes) ->
      base64url_char c = true
      /\ c <> "+"%char /\ c <> "/"%char /\ c <> "="%char).
Proof.
  destruct (base64UrlEncode_shape bytes) as [Hlen Hall].
  split; [exact Hlen |].
  intros Hc. pose proof (string_forall_occurs _ _ _ Hall Hc) as Hok.
  repeat split; try exact Hok; intros ->; discriminate Hok.
Qed.

Lemma base64UrlEncode_unpadded_url_safe_witness :
  String.length (base64UrlEncode [255; 254; 62; 63; 0]) = 7%nat
  /\ base64url_char "_"%char = true
  /\ "_"%char <> "+"%char /\ "_"%char <> "/"%char /\ "_"%char <> "="%char.
Proof.
  destruct (base64UrlEncode_unpadded_url_safe [255; 254; 62; 63; 0] "_"%char)
    as [Hlen Hchar].
  split; [exact Hlen |].
  apply Hchar. vm_compute. left. reflexivity.
Defined.

(** *** Login *)

Lemma truthy_string (s : string) : truthy (Some s) = true <-> s <> "".
Proof.
  simpl. destruct (String.eqb_spec s "") as [E | E]; simpl; split; intros H;
    [discriminate | contradiction | exact E | reflexivity].
Qed.

Lemma same_storage_page_load (w : World) (path : string) (query : list (string * string)) :
  same_storage (page_load w path query) w.
Proof. split; reflexivity. Qed.

Lemma page_load_without_query (w : World) (path : string) :
  has_callback_params (page_load w path []) = false.
Proof. reflexivity. Qed.

(** The world [login] leaves when a redirect URI is configured. *)
Lemma login_configured_run (B : Browser) (w : World) :
  redirectUri (OAUTH_CONFIG B) <> "" ->
  login B w
  = (Normal tt,
     emit (LocationAssign (authorization_url B))
       (emit (ConsoleLog "Redirecting to authorize with PKCE")
          (set_sessionStorage
             (insert "pkce_verifier" (generateCodeVerifier (crypto_random B)))
             (set_localStorage (insert "oauth_state" (Math_random_state B))
                (set_sessionStorage (insert "isLoggingIn" "1") w))))).
Proof.
  intros Huri. apply truthy_string in Huri.
  unfold login, authorization_url, authorization_params. js_unfold.
  rewrite Huri. reflexivity.
Qed.



(** *** Loading tokens: the remaining cases *)

Lemma purge_tokens_lookup (m : gmap string string) (k : string) :
  In k token_fields -> purge_tokens m !! k = None.
Proof.
  intros Hk. cbn [In token_fields] in Hk. unfold purge_tokens.
  destruct Hk as [<- | [<- | [<- | [<- | []]]]];
    rewrite ?lookup_delete_eq;
    rewrite ?lookup_delete_ne by discriminate;
    rewrite ?lookup_delete_eq;
    rewrite ?lookup_delete_ne by discriminate;
    rewrite ?lookup_delete_eq;
    rewrite ?lookup_delete_ne by discriminate;
    rewrite ?lookup_delete_eq; reflexivity.
Qed.

Lemma purge_tokens_other (m : gmap string string) (k : string) :
  ~ In k token_fields -> purge_tokens m !! k = m !! k.
Proof.
  intros Hk. cbn [In token_fields] in Hk. unfold purge_tokens.
  rewrite !lookup_delete_ne by (intros <-; tauto). reflexivity.
Qed.

(** The three outcomes of the mount effect. *)
Lemma load_tokens_run (B : Browser) (w : World) :
  load_tokens B w
  = (Normal tt,
     if truthy (localStorage w !! "access_token")
        && truthy (localStorage w !! "token_expiry") then
       if lt_number (Date_now B) (parseInt (default "" (localStorage w !! "token_expiry"))) then
         set_session (fun _ => {| isAuthenticated := true; isLoading := false;
                                  accessToken := localStorage w !! "access_token" |}) w
       else
         set_session (fun s => {| isAuthenticated := isAuthenticated s; isLoading := false;
                                  accessToken := accessToken s |})
                     (set_localStorage purge_tokens w)
     else
       set_session (fun s => {| isAuthenticated := isAuthenticated s; isLoading := false;
                                accessToken := accessToken s |}) w).
Proof.
  unfold load_tokens, purge_tokens. js_unfold. world_simpl.
  js_cases; reflexivity.
Qed.

(** X3. When a non-empty access token is stored and the stored expiry
    reads as a time after the current one, the mount effect authenticates
    the session with that token, clears the loading flag and changes
    nothing in either storage. *)
Theorem load_tokens_restores_session
    (B : Browser) (w : World) (token tokenExpiry : string) (expiryTime : Z) :
  localStorage w !! "access_token" = Some token ->
  token <> "" ->
  localStorage w !! "token_expiry" = Some tokenExpiry ->
  parseInt tokenExpiry = Some expiryTime ->
  Date_now B < expiryTime ->
  let w' := snd (load_tokens B w) in
  session w' = {| isAuthenticated := true; isLoading := false; accessToken := Some token |}
  /\ localStorage w' = localStorage w
  /\ sessionStorage w' = sessionStorage w
  /\ events w' = events w.
Proof.
  intros Htoken Hne Hexpiry Hparse Hlt. cbv zeta.
  rewrite load_tokens_run. cbn [snd].
  rewrite Htoken, Hexpiry, (truthy_Some token Hne),
          (truthy_Some tokenExpiry (parseInt_nonempty _ _ Hparse)).
  cbn [andb from_option id]. rewrite Hparse. cbn [lt_number].
  destruct (Z.ltb_spec (Date_now B) expiryTime) as [_ | Hge]; [| lia].
  world_simpl. repeat split.
Qed.

Lemma load_tokens_restores_session_witness :
  let B := Examples.browser Examples.configured Examples.endpoint_ok in
  let w := Examples.world
             (<["access_token" := "A"]> (<["token_expiry" := "1001"]> ∅)) ∅ in
  let w' := snd (load_tokens B w) in
  session w' = {| isAuthenticated := true; isLoading := false; accessToken := Some "A" |}
  /\ localStorage w' = localStorage w
  /\ sessionStorage w' = sessionStorage w
  /\ events w' = events w.
Proof.
  cbv zeta.
  apply (load_tokens_restores_session
           (Examples.browser Examples.configured Examples.endpoint_ok)
           (Examples.world (<["access_token" := "A"]> (<["token_expiry" := "1001"]> ∅)) ∅)
           "A" "1001" 1001).
  - vm_compute. reflexivity.
  - discriminate.
  - vm_compute. reflexivity.
  - vm_compute. reflexivity.
  - vm_compute. reflexivity.
Defined.

(** X4. A stored expiry that does not start with a number (after optional
    white space and sign) reads as [NaN]; [Date.now() < NaN] is false, so
    the record counts as expired: the session is not authenticated and the
    four token keys are removed. *)
Theorem load_tokens_purges_unreadable_expiry
    (B : Browser) (w : World) (token tokenExpiry : string) :
  localStorage w !! "access_token" = Some token ->
  token <> "" ->
  localStorage w !! "token_expiry" = Some tokenExpiry ->
  tokenExpiry <> "" ->
  parseInt tokenExpiry = None ->
  let w' := snd (load_tokens B w) in
  isAuthenticated (session w') = isAuthenticated (session w)
  /\ accessToken (session w') = accessToken (session w)
  /\ isLoading (session w') = false
  /\ (forall k, In k token_fields -> localStorage w' !! k = None)
  /\ (forall k, ~ In k token_fields -> localStorage w' !! k = localStorage w !! k).
Proof.
  intros Htoken Hne Hexpiry Hne' Hparse. cbv zeta.
  rewrite load_tokens_run. cbn [snd].
  rewrite Htoken, Hexpiry, (truthy_Some token Hne), (truthy_Some tokenExpiry Hne').
  cbn [andb from_option id]. rewrite Hparse. cbn [lt_number]. world_simpl.
  split; [reflexivity |]. split; [reflexivity |]. split; [reflexivity |].
  split; [apply purge_tokens_lookup | apply purge_tokens_other].
Qed.

Lemma load_tokens_purges_unreadable_expiry_witness :
  let B := Examples.browser Examples.configured Examples.endpoint_ok in
  let w := Examples.world
             (<["access_token" := "A"]> (<["token_expiry" := "NaN"]>
               (<["oauth_state" := "xyz"]> ∅))) ∅ in
  let w' := snd (load_tokens B w) in
  isAuthenticated (session w') = isAuthenticated (session w)
  /\ accessToken (session w') = accessToken (session w)
  /\ isLoading (session w') = false
  /\ (forall k, In k token_fields -> localStorage w' !! k = None)
  /\ (forall k, ~ In k token_fields -> localStorage w' !! k = localStorage w !! k).
Proof.
  cbv zeta.
  apply (load_tokens_purges_unreadable_expiry
           (Examples.browser Examples.configured Examples.endpoint_ok)
           (Examples.world
              (<["access_token" := "A"]> (<["token_expiry" := "NaN"]>
                (<["oauth_state" := "xyz"]> ∅))) ∅)
           "A" "NaN").
  - vm_compute. reflexivity.
  - discriminate.
  - vm_compute. reflexivity.
  - discriminate.
  - vm_compute. reflexivity.
Defined.

(** X5. Running the mount effect a second time changes nothing: whatever
    the storage holds, the world after two runs is the world after one. *)
Theorem load_tokens_idempotent (B : Browser) (w : World) :
  load_tokens B (snd (load_tokens B w)) = load_tokens B w.
Proof.
  rewrite !load_tokens_run. cbn [snd].
  destruct (truthy (localStorage w !! "access_token")
            && truthy (localStorage w !! "token_expiry")) eqn:Hcond.
  - destruct (lt_number (Date_now B)
                (parseInt (default "" (localStorage w !! "token_expiry")))) eqn:Hlt;
      world_simpl.
    + rewrite Hcond, Hlt. reflexivity.
    + rewrite (purge_tokens_lookup _ "access_token") by (cbn; tauto).
      reflexivity.
  - world_simpl. rewrite Hcond. reflexivity.
Qed.

(** *** The callback handler: frames and compositions *)

(** The world a rejected callback leaves. *)
Lemma handleAuthCallback_mismatch_run
    (B : Browser) (code state : string) (w : World) :
  localStorage w !! "oauth_state" <> Some state ->
  handleAuthCallback B code state w
  = (Normal false,
     set_sessionStorage (delete "isLoggingIn")
       (emit (ConsoleError "State mismatch - possible CSRF attack") w)).
Proof.
  intros Hne. unfold handleAuthCallback. js_unfold.
  rewrite bool_decide_false by congruence. reflexivity.
Qed.

(** After a callback whose state matched, the CSRF state is gone. *)
Lemma handleAuthCallback_match_consumes_state
    (B : Browser) (code state : string) (w : World) :
  localStorage w !! "oauth_state" = Some state ->
  localStorage (snd (handleAuthCallback B code state w)) !! "oauth_state" = None.
Proof.
  intros Hmatch. unfold handleAuthCallback. js_unfold.
  rewrite bool_decide_true by congruence. cbv [negb]. world_simpl.
  js_cases; world_simpl;
    rewrite ?lookup_insert_ne by discriminate; apply lookup_delete_eq.
Qed.

(** X6. A callback whose [state] does not match changes nothing but the
    [isLoggingIn] marker and the console: durable storage (tokens and the
    stored CSRF state included), every other session-storage key, the
    session, and the page location are what they were, and no navigation
    or request happens. *)
Theorem handleAuthCallback_mismatch_frame
    (B : Browser) (code state : string) (w : World) :
  localStorage w !! "oauth_state" <> Some state ->
  let w' := snd (handleAuthCallback B code state w) in
  localStorage w' = localStorage w
  /\ sessionStorage w' = delete "isLoggingIn" (sessionStorage w)
  /\ session w' = session w
  /\ search w' = search w
  /\ events w'
     = (events w ++ [ConsoleError "State mismatch - possible CSRF attack"])%list.
Proof.
  intros Hne. cbv zeta. rewrite (handleAuthCallback_mismatch_run B code state w Hne).
  world_simpl. repeat split.
Qed.

Lemma handleAuthCallback_mismatch_frame_witness :
  let B := Examples.browser Examples.configured Examples.endpoint_ok in
  let w := Examples.awaiting_callback in
  let w' := snd (handleAuthCallback B "abc" "forged" w) in
  localStorage w' = localStorage w
  /\ sessionStorage w' = delete "isLoggingIn" (sessionStorage w)
  /\ session w' = session w
  /\ search w' = search w
  /\ events w'
     = (events w ++ [ConsoleError "State mismatch - possible CSRF attack"])%list.
Proof.
  cbv zeta.
  apply (handleAuthCallback_mismatch_frame
           (Examples.browser Examples.configured Examples.endpoint_ok)
           "abc" "forged" Examples.awaiting_callback).
  vm_compute. discriminate.
Defined.

(** X7. The stored CSRF state is good for one callback only: after a
    callback whose state matched (whether the exchange then succeeded or
    not), a second callback, with the same or any other state and against
    any endpoint, is rejected without a request. *)
Theorem handleAuthCallback_replay_rejected
    (B B' : Browser) (code code' state state' : string) (w : World) :
  localStorage w !! "oauth_state" = Some state ->
  let w1 := snd (handleAuthCallback B code state w) in
  fst (handleAuthCallback B' code' state' w1) = Normal false
  /\ fetch_count (events (snd (handleAuthCallback B' code' state' w1)))
     = fetch_count (events w1)
  /\ session (snd (handleAuthCallback B' code' state' w1)) = session w1
  /\ localStorage (snd (handleAuthCallback B' code' state' w1)) = localStorage w1.
Proof.
  intros Hmatch. cbv zeta.
  pose proof (handleAuthCallback_match_consumes_state B code state w Hmatch) as Hgone.
  rewrite handleAuthCallback_mismatch_run by (rewrite Hgone; discriminate).
  world_simpl. rewrite fetch_count_app, fetch_count_one. cbn [is_fetch].
  repeat split. lia.
Qed.

Lemma handleAuthCallback_replay_rejected_witness :
  let B := Examples.browser Examples.configured Examples.endpoint_ok in
  let w1 := snd (handleAuthCallback B "abc" "xyz" Examples.awaiting_callback) in
  fst (handleAuthCallback B "abc" "xyz" w1) = Normal false
  /\ fetch_count (events (snd (handleAuthCallback B "abc" "xyz" w1)))
     = fetch_count (events w1)
  /\ session (snd (handleAuthCallback B "abc" "xyz" w1)) = session w1
  /\ localStorage (snd (handleAuthCallback B "abc" "xyz" w1)) = localStorage w1.
Proof.
  cbv zeta.
  apply (handleAuthCallback_replay_rejected
           (Examples.browser Examples.configured Examples.endpoint_ok)
           (Examples.browser Examples.configured Examples.endpoint_ok)
           "abc" "abc" "xyz" "xyz" Examples.awaiting_callback).
  vm_compute. reflexivity.
Defined.

(** The storage and session a successful exchange leaves. *)
Lemma handleAuthCallback_success_run
    (B : Browser) (code state : string) (w : World)
    (response : Response) (tokens : TokenResponse) :
  localStorage w !! "oauth_state" = Some state ->
  credentials_encodable B = true ->
  exchange_answer B code w = FetchResolves response ->
  ok response = true ->
  json response = Some tokens ->
  let w' := snd (handleAuthCallback B code state w) in
  fst (handleAuthCallback B code state w) = Normal true
  /\ localStorage w' = store_tokens B tokens (delete "oauth_state" (localStorage w))
  /\ sessionStorage w' = delete "isLoggingIn" (consume_verifier (sessionStorage w))
  /\ session w'
     = {| isAuthenticated := true; isLoading := isLoading (session w);
          accessToken := Some (access_token tokens) |}.
Proof.
  intros Hstate. cbv zeta.
  unfold credentials_encodable, exchange_answer, exchange_headers, exchange_params,
         handleAuthCallback, store_tokens, consume_verifier.
  js_unfold.
  rewrite bool_decide_true by congruence. cbn [negb]. world_simpl.
  js_cases; try discriminate; world_simpl; cbn [negb orb];
    intros Henc Hanswer Hok Hparsed;
    try discriminate Henc;
    inversion Hanswer; subst;
    try congruence;
    try (rewrite Hok in *; discriminate);
    repeat match goal with
           | H : json _ = Some _, H' : json _ = Some _ |- _ =>
               rewrite H in H'; inversion H'; subst; clear H'
           end;
    repeat match goal with
           | H : ?c = true |- context [if ?c then _ else _] => rewrite H
           | H : ?c = false |- context [if ?c then _ else _] => rewrite H
           end;
    try (repeat split; fail).
  all: try congruence.
Qed.

(** After a callback whose state matched, session storage has lost the
    marker and the verifier that was used. *)
Lemma handleAuthCallback_match_session_storage
    (B : Browser) (code state : string) (w : World) :
  localStorage w !! "oauth_state" = Some state ->
  sessionStorage (snd (handleAuthCallback B code state w))
  = delete "isLoggingIn" (consume_verifier (sessionStorage w)).
Proof.
  intros Hmatch. unfold handleAuthCallback, consume_verifier. js_unfold.
  rewrite bool_decide_true by congruence. cbv [negb]. world_simpl.
  js_cases; try discriminate; world_simpl; reflexivity.
Qed.

Lemma generateCodeVerifier_nonempty (source : nat -> Z) :
  generateCodeVerifier source <> "".
Proof.
  intros Hempty.
  pose proof (proj1 (base64UrlEncode_shape (getRandomValues source 32))) as Hlen.
  unfold generateCodeVerifier in Hempty. cbv zeta in Hempty. rewrite Hempty in Hlen.
  unfold getRandomValues in Hlen.
  rewrite List.length_map, List.length_seq in Hlen. discriminate Hlen.
Qed.

(** X8. When the state matches and the credentials can be encoded (no
    client secret, or no code unit above 255 in [clientId:clientSecret]),
    the handler sends exactly one request: a POST to the token URL whose
    form carries the grant type, the client id, the authorization code and
    the redirect URI, and the stored verifier as [code_verifier] when there
    is a non-empty one (no such parameter otherwise); a Basic
    [Authorization] header is present exactly when a client secret is
    configured. When a client secret is configured and [btoa] rejects the
    credentials, the handler returns false, logs the error and sends no
    request. *)
Theorem handleAuthCallback_exchange_request
    (B : Browser) (code state : string) (w : World) :
  localStorage w !! "oauth_state" = Some state ->
  (credentials_encodable B = true ->
   exists headers params later,
     events (snd (handleAuthCallback B code state w))
     = (events w
        ++ FetchPost (tokenUrl (OAUTH_CONFIG B)) headers
             (URLSearchParams_toString B params) :: later)%list
     /\ fetch_count later = 0%nat
     /\ params_get "grant_type" params = Some "authorization_code"
     /\ params_get "client_id" params = Some (clientId (OAUTH_CONFIG B))
     /\ params_get "code" params = Some code
     /\ params_get "redirect_uri" params = Some (redirectUri (OAUTH_CONFIG B))
     /\ params_get "code_verifier" params
        = (if truthy (sessionStorage w !! "pkce_verifier")
           then sessionStorage w !! "pkce_verifier" else None)
     /\ params_get "Content-Type" headers = Some "application/x-www-form-urlencoded"
     /\ params_get "Authorization" headers
        = (if truthy (Some (clientSecret (OAUTH_CONFIG B)))
           then Some ("Basic " ++ Base64.btoa (clientId (OAUTH_CONFIG B) ++ ":"
                                               ++ clientSecret (OAUTH_CONFIG B)))
           else None))
  /\ (credentials_encodable B = false ->
      fst (handleAuthCallback B code state w) = Normal false
      /\ events (snd (handleAuthCallback B code state w))
         = (events w ++ [ConsoleError "Error during token exchange:"])%list
      /\ fetch_count (events (snd (handleAuthCallback B code state w)))
         = fetch_count (events w)).
Proof.
  intros Hmatch. split.
  - intros Henc.
    destruct (handleAuthCallback_sends_exchange_request B code state w Hmatch Henc)
      as (later & Hevents & Hlater).
    exists (exchange_headers B),
           (exchange_params B code (sessionStorage w !! "pkce_verifier")), later.
    split; [exact Hevents |]. split; [exact Hlater |].
    unfold exchange_headers, exchange_params.
    destruct (sessionStorage w !! "pkce_verifier") as [v |] eqn:Hv;
      [destruct (truthy (Some v)) eqn:Htv |];
      destruct (truthy (Some (clientSecret (OAUTH_CONFIG B)))) eqn:Hsec;
      repeat split.
  - intros Henc.
    destruct (handleAuthCallback_unencodable_run B code state w Hmatch Henc)
      as [Hret Hevents].
    split; [exact Hret |]. split; [exact Hevents |].
    rewrite Hevents, fetch_count_app, fetch_count_one. cbn [is_fetch]. lia.
Qed.

Lemma handleAuthCallback_exchange_request_witness :
  (exists headers params later,
     events (snd (handleAuthCallback
                    (Examples.browser Examples.configured Examples.endpoint_ok)
                    "abc" "xyz" Examples.awaiting_callback))
     = (events Examples.awaiting_callback
        ++ FetchPost "" headers "" :: later)%list
     /\ params_get "code" params = Some "abc"
     /\ params_get "code_verifier" params = Some "ver"
     /\ params_get "Authorization" headers = None)
  /\ fst (handleAuthCallback (Examples.browser_wide_secret Examples.endpoint_ok)
                             "abc" "xyz" Examples.awaiting_callback)
     = Normal false.
Proof.
  split.
  - destruct (proj1 (handleAuthCallback_exchange_request
                       (Examples.browser Examples.configured Examples.endpoint_ok)
                       "abc" "xyz" Examples.awaiting_callback
                       ltac:(vm_compute; reflexivity))
                    ltac:(vm_compute; reflexivity))
      as (headers & params & later & Hev & _ & _ & _ & Hcode & _ & Hver & _ & Hauth).
    exists headers, params, later.
    split; [exact Hev |]. split; [exact Hcode |]. split; [exact Hver | exact Hauth].
  - apply (proj2 (handleAuthCallback_exchange_request
                    (Examples.browser_wide_secret Examples.endpoint_ok)
                    "abc" "xyz" Examples.awaiting_callback
                    ltac:(vm_compute; reflexivity))).
    vm_compute. reflexivity.
Defined.

(** X9. What [login] stores is what the callback needs: on a page that
    holds the storage [login] left, a callback carrying the state that
    [login] put into the authorization URL passes the state check and,
    the credentials being encodable, sends exactly one request, whose
    [code_verifier] is the verifier [login] generated; afterwards state,
    verifier and [isLoggingIn] are gone (that also when [btoa] rejects the
    credentials and no request is sent). *)
Theorem login_then_callback
    (B B' : Browser) (code : string) (w w1 : World) :
  redirectUri (OAUTH_CONFIG B) <> "" ->
  same_storage w1 (snd (login B w)) ->
  let verifier := generateCodeVerifier (crypto_random B) in
  let w2 := snd (handleAuthCallback B' code (Math_random_state B) w1) in
  params_get "state" (authorization_params B) = Some (Math_random_state B)
  /\ (credentials_encodable B' = true ->
      exists later,
        events w2
        = (events w1
           ++ FetchPost (tokenUrl (OAUTH_CONFIG B')) (exchange_headers B')
                (URLSearchParams_toString B' (exchange_params B' code (Some verifier)))
              :: later)%list
        /\ fetch_count later = 0%nat)
  /\ params_get "code_verifier" (exchange_params B' code (Some verifier)) = Some verifier
  /\ flow_secrets_cleared w2
  /\ sessionStorage w2 !! "isLoggingIn" = None.
Proof.
  intros Huri [Hlocal Hsession]. cbv zeta.
  rewrite (login_configured_run B w Huri) in Hlocal, Hsession. world_simpl.
  assert (Hstate : localStorage w1 !! "oauth_state" = Some (Math_random_state B))
    by (rewrite Hlocal; apply lookup_insert_eq).
  assert (Hver : sessionStorage w1 !! "pkce_verifier"
                 = Some (generateCodeVerifier (crypto_random B)))
    by (rewrite Hsession; apply lookup_insert_eq).
  pose proof (truthy_Some _ (generateCodeVerifier_nonempty (crypto_random B))) as Htruthy.
  split; [reflexivity |].
  split.
  { intros Henc.
    destruct (handleAuthCallback_sends_exchange_request B' code _ w1 Hstate Henc)
      as (later & Hev & Hlater).
    rewrite Hver in Hev. exists later. split; assumption. }
  split.
  { unfold exchange_params. rewrite Htruthy. reflexivity. }
  split.
  - split.
    + apply handleAuthCallback_match_consumes_state. exact Hstate.
    + rewrite handleAuthCallback_match_session_storage by exact Hstate.
      unfold consume_verifier. rewrite Hver, Htruthy.
      rewrite lookup_delete_ne by discriminate. apply lookup_delete_eq.
  - rewrite handleAuthCallback_match_session_storage by exact Hstate.
    apply lookup_delete_eq.
Qed.

Lemma login_then_callback_witness :
  let B := Examples.browser Examples.configured Examples.endpoint_ok in
  let w1 := page_load (snd (login B (Examples.world ∅ ∅))) "/dashboard"
                      [("code", "abc"); ("state", "k3j9x")] in
  let w2 := snd (handleAuthCallback B "abc" "k3j9x" w1) in
  (exists later,
     events w2
     = (events w1
        ++ FetchPost (tokenUrl (OAUTH_CONFIG B)) (exchange_headers B)
             (URLSearchParams_toString B
                (exchange_params B "abc" (Some (generateCodeVerifier (crypto_random B)))))
           :: later)%list
     /\ fetch_count later = 0%nat)
  /\ flow_secrets_cleared w2 /\ sessionStorage w2 !! "isLoggingIn" = None.
Proof.
  cbv zeta.
  pose proof (login_then_callback
                (Examples.browser Examples.configured Examples.endpoint_ok)
                (Examples.browser Examples.configured Examples.endpoint_ok)
                "abc" (Examples.world ∅ ∅)
                (page_load (snd (login (Examples.browser Examples.configured
                                                         Examples.endpoint_ok)
                                       (Examples.world ∅ ∅)))
                           "/dashboard" [("code", "abc"); ("state", "k3j9x")])) as H.
  cbv zeta in H.
  destruct H as (_ & Hsent & _ & Hcleared & Hmarker).
  - vm_compute. discriminate.
  - apply same_storage_page_load.
  - split; [apply Hsent; vm_compute; reflexivity |].
    split; [exact Hcleared | exact Hmarker].
Defined.

(** X10. Tokens stored by a successful callback are found again on the next
    page load, as long as the expiry is a number that doubles keep exactly
    (product and sum are safe integers): while the clock is before
    [Date.now() + expires_in * 1000] of the callback, the mount effect
    authenticates the session with the stored access token and keeps
    durable storage; from that time on it leaves the session
    unauthenticated and removes the four token keys. *)
Theorem callback_then_reload
    (B B' : Browser) (code state : string) (w : World)
    (response : Response) (tokens : TokenResponse)
    (path : string) (query : list (string * string)) :
  localStorage w !! "oauth_state" = Some state ->
  credentials_encodable B = true ->
  exchange_answer B code w = FetchResolves response ->
  ok response = true ->
  json response = Some tokens ->
  access_token tokens <> "" ->
  expiry_exact B tokens = true ->
  let w1 := page_load (snd (handleAuthCallback B code state w)) path query in
  let expiry := Date_now B + expires_in tokens * 1000 in
  (Date_now B' < expiry ->
   session (snd (load_tokens B' w1))
   = {| isAuthenticated := true; isLoading := false;
        accessToken := Some (access_token tokens) |}
   /\ localStorage (snd (load_tokens B' w1)) = localStorage w1)
  /\ (expiry <= Date_now B' ->
      session (snd (load_tokens B' w1))
      = {| isAuthenticated := false; isLoading := false; accessToken := None |}
      /\ (forall k, In k token_fields ->
                    localStorage (snd (load_tokens B' w1)) !! k = None)).
Proof.
  intros Hstate Henc Hanswer Hok Hjson Hne Hexact. cbv zeta.
  destruct (handleAuthCallback_success_run B code state w response tokens
              Hstate Henc Hanswer Hok Hjson) as (_ & Hlocal & _ & _).
  cbv zeta in Hlocal.
  destruct (expiry_exact_value B tokens Hexact) as [Hvalue Hsafe].
  set (w1 := page_load (snd (handleAuthCallback B code state w)) path query).
  assert (Htok : localStorage w1 !! "access_token" = Some (access_token tokens)).
  { unfold w1, page_load. world_simpl. rewrite Hlocal. unfold store_tokens.
    destruct (truthy (refresh_token tokens));
      rewrite !lookup_insert_ne by discriminate; apply lookup_insert_eq. }
  assert (Hexp : localStorage w1 !! "token_expiry"
                 = Some (decimal_string (Date_now B + expires_in tokens * 1000))).
  { unfold w1, page_load. world_simpl. rewrite Hlocal. unfold store_tokens.
    rewrite lookup_insert_eq, Hvalue, (Number_toString_safe B _ Hsafe). reflexivity. }
  assert (Hsess : session w1 = initial_session) by reflexivity.
  clearbody w1.
  rewrite load_tokens_run. cbn [snd].
  rewrite Htok, Hexp.
  rewrite (truthy_Some _ Hne).
  rewrite (truthy_Some _ (parseInt_nonempty _ _ (parseInt_decimal_string _))).
  cbn [andb from_option id]. rewrite parseInt_decimal_string. cbn [lt_number].
  split; intros Htime.
  - destruct (Z.ltb_spec (Date_now B') (Date_now B + expires_in tokens * 1000));
      [| lia].
    world_simpl. split; reflexivity.
  - destruct (Z.ltb_spec (Date_now B') (Date_now B + expires_in tokens * 1000));
      [lia |].
    world_simpl. rewrite Hsess. split; [reflexivity |].
    intros k Hk. apply purge_tokens_lookup. exact Hk.
Qed.

Lemma callback_then_reload_witness :
  let B := Examples.browser Examples.configured Examples.endpoint_ok in
  let w1 := page_load (snd (handleAuthCallback B "abc" "xyz" Examples.awaiting_callback))
                      "/dashboard" [] in
  session (snd (load_tokens B w1))
  = {| isAuthenticated := true; isLoading := false; accessToken := Some "A" |}
  /\ localStorage (snd (load_tokens B w1)) = localStorage w1.
Proof.
  cbv zeta.
  apply (proj1 (callback_then_reload
                  (Examples.browser Examples.configured Examples.endpoint_ok)
                  (Examples.browser Examples.configured Examples.endpoint_ok)
                  "abc" "xyz" Examples.awaiting_callback
                  {| ok := true; text := None; json := Some Examples.tokens_A |}
                  Examples.tokens_A "/dashboard" []
                  eq_refl eq_refl eq_refl eq_refl eq_refl
                  ltac:(discriminate) eq_refl)).
  vm_compute. reflexivity.
Defined.

(** *** Logout *)

Lemma logout_run (B : Browser) (w : World) :
  logout B w
  = (Normal tt,
     emit (if logout_configured B
           then LocationReplace (logout_url B)
           else ConsoleError "Missing required environment variables for logout: VITE_OAUTH_LOGOUT_URL or VITE_OAUTH_LOGOUT_REDIRECT")
       (set_sessionStorage (delete "pkce_verifier")
          (set_localStorage logout_storage
             (set_session (fun s => {| isAuthenticated := false;
                                       isLoading := isLoading s;
                                       accessToken := None |})
                (set_sessionStorage (insert "justLoggedOut" "1") w))))).
Proof.
  unfold logout, logout_configured, logout_url, logout_storage, purge_tokens.
  js_unfold. world_simpl.
  destruct (truthy (envRecord B !! "VITE_OAUTH_LOGOUT_URL"));
    destruct (truthy (envRecord B !! "VITE_OAUTH_LOGOUT_REDIRECT")); reflexivity.
Qed.

(** X11. [logout] always resets the session and clears the storage, also
    when the logout configuration is missing: afterwards the session is
    unauthenticated with no access token, the four token keys, the CSRF
    state and the PKCE verifier are gone, [justLoggedOut] is set, and the
    other keys are untouched. *)
Theorem logout_clears_session_and_storage (B : Browser) (w : World) (k : string) :
  let w' := snd (logout B w) in
  fst (logout B w) = Normal tt
  /\ isAuthenticated (session w') = false
  /\ accessToken (session w') = None
  /\ (In k ("oauth_state" :: token_fields) -> localStorage w' !! k = None)
  /\ (~ In k ("oauth_state" :: token_fields) -> localStorage w' !! k = localStorage w !! k)
  /\ sessionStorage w' !! "pkce_verifier" = None
  /\ sessionStorage w' !! "justLoggedOut" = Some "1"
  /\ (k <> "pkce_verifier" -> k <> "justLoggedOut" ->
      sessionStorage w' !! k = sessionStorage w !! k).
Proof.
  cbv zeta. rewrite logout_run. world_simpl. unfold logout_storage.
  split; [reflexivity |]. split; [reflexivity |]. split; [reflexivity |].
  split.
  { intros [<- | Hk]; [apply lookup_delete_eq |].
    destruct (decide (k = "oauth_state")) as [-> | Hne];
      [apply lookup_delete_eq |].
    rewrite lookup_delete_ne by congruence. apply purge_tokens_lookup. exact Hk. }
  split.
  { intros Hk. rewrite lookup_delete_ne by (intros <-; apply Hk; left; reflexivity).
    apply purge_tokens_other. intros Hin. apply Hk. right. exact Hin. }
  split; [apply lookup_delete_eq |].
  split; [rewrite lookup_delete_ne by discriminate; apply lookup_insert_eq |].
  intros Hk1 Hk2. rewrite lookup_delete_ne by congruence.
  apply lookup_insert_ne. congruence.
Qed.

Lemma logout_clears_session_and_storage_witness :
  let B := Examples.browser ∅ Examples.endpoint_ok in
  let w := Examples.world
             (<["access_token" := "A"]> (<["id_token" := "I"]>
               (<["token_expiry" := "5000"]> (<["oauth_state" := "xyz"]> ∅))))
             (<["pkce_verifier" := "ver"]> ∅) in
  let w' := snd (logout B w) in
  isAuthenticated (session w') = false
  /\ accessToken (session w') = None
  /\ localStorage w' !! "id_token" = None
  /\ sessionStorage w' !! "pkce_verifier" = None
  /\ sessionStorage w' !! "justLoggedOut" = Some "1".
Proof.
  cbv zeta.
  destruct (logout_clears_session_and_storage
              (Examples.browser ∅ Examples.endpoint_ok)
              (Examples.world
                 (<["access_token" := "A"]> (<["id_token" := "I"]>
                   (<["token_expiry" := "5000"]> (<["oauth_state" := "xyz"]> ∅))))
                 (<["pkce_verifier" := "ver"]> ∅))
              "id_token")
    as (_ & Hauth & Htoken & Hgone & _ & Hver & Hout & _).
  cbv zeta in Hgone.
  split; [exact Hauth |]. split; [exact Htoken |].
  split; [apply Hgone; cbn; tauto |].
  split; [exact Hver | exact Hout].
Defined.

(** X12. [logout] navigates, with [location.replace], exactly when both the
    logout URL and the logout redirect are configured and not empty, and
    then to [logoutUrl?client_id=...&logout_uri=...] with nothing logged;
    otherwise it logs the error about the missing variables and does not
    navigate. It never sends a request. *)
Theorem logout_navigates_iff_configured (B : Browser) (w : World) :
  let w' := snd (logout B w) in
  (logout_configured B = true ->
   events w' = (events w ++ [LocationReplace (logout_url B)])%list)
  /\ (logout_configured B = false ->
      events w'
      = (events w ++ [ConsoleError "Missing required environment variables for logout: VITE_OAUTH_LOGOUT_URL or VITE_OAUTH_LOGOUT_REDIRECT"])%list
      /\ navigation_count (events w') = navigation_count (events w))
  /\ fetch_count (events w') = fetch_count (events w).
Proof.
  cbv zeta. rewrite logout_run. world_simpl.
  split; [| split].
  - intros ->. reflexivity.
  - intros ->. split; [reflexivity |].
    rewrite navigation_count_app. unfold navigation_count at 2. simpl. lia.
  - rewrite fetch_count_app, fetch_count_one.
    destruct (logout_configured B); simpl; lia.
Qed.

Lemma logout_navigates_iff_configured_witness :
  let B := Examples.browser
             (<["VITE_OAUTH_LOGOUT_URL" := "https://idp.example/logout"]>
                (<["VITE_OAUTH_LOGOUT_REDIRECT" := "https://app.example/track"]>
                   (<["VITE_OAUTH_CLIENT_ID" := "cid"]> ∅)))
             Examples.endpoint_ok in
  let B0 := Examples.browser ∅ Examples.endpoint_ok in
  let w := Examples.world ∅ ∅ in
  events (snd (logout B w)) = (events w ++ [LocationReplace (logout_url B)])%list
  /\ events (snd (logout B0 w))
     = (events w ++ [ConsoleError "Missing required environment variables for logout: VITE_OAUTH_LOGOUT_URL or VITE_OAUTH_LOGOUT_REDIRECT"])%list
  /\ navigation_count (events (snd (logout B0 w))) = navigation_count (events w).
Proof.
  cbv zeta. split.
  - apply (proj1 (logout_navigates_iff_configured
                    (Examples.browser
                       (<["VITE_OAUTH_LOGOUT_URL" := "https://idp.example/logout"]>
                          (<["VITE_OAUTH_LOGOUT_REDIRECT" := "https://app.example/track"]>
                             (<["VITE_OAUTH_CLIENT_ID" := "cid"]> ∅)))
                       Examples.endpoint_ok)
                    (Examples.world ∅ ∅))).
    vm_compute. reflexivity.
  - apply (proj1 (proj2 (logout_navigates_iff_configured
                           (Examples.browser ∅ Examples.endpoint_ok)
                           (Examples.world ∅ ∅)))).
    vm_compute. reflexivity.
Defined.

(** *** The route guard: remaining branches and compositions *)

(** The guard on a URL without callback parameters. *)
Lemma processCallback_guard_run (auth : AuthContextType) (redirected : bool) (w : World) :
  has_callback_params w = false ->
  processCallback auth redirected w
  = if negb (ctx_isLoading auth) && negb (ctx_isAuthenticated auth) && negb redirected then
      if truthy (sessionStorage w !! "justLoggedOut") then
        (Normal tt, mark_redirected (set_sessionStorage (delete "justLoggedOut") w))
      else if truthy (sessionStorage w !! "isLoggingIn") then
        (Normal tt,
         mark_redirected
           (emit (ConsoleLog "Login already in progress, skipping duplicate trigger") w))
      else ctx_login auth (mark_redirected w)
    else (Normal tt, w).
Proof.
  unfold has_callback_params. intros Hparams.
  unfold processCallback. js_unfold. rewrite Hparams.
  destruct (negb (ctx_isLoading auth) && negb (ctx_isAuthenticated auth) && negb redirected);
    [| reflexivity].
  destruct (truthy (sessionStorage w !! "justLoggedOut")); [reflexivity |].
  destruct (truthy (sessionStorage w !! "isLoggingIn")); [reflexivity |].
  unfold mark_redirected. destruct (ctx_login auth _); reflexivity.
Qed.

(** X13. Without callback parameters in the URL the guard does nothing at
    all while the session is loading, once it is authenticated, or after
    this guard has already redirected: the world is unchanged and [login]
    is not run, whatever the markers in storage are. *)
Theorem processCallback_idle (auth : AuthContextType) (redirected : bool) (w : World) :
  has_callback_params w = false ->
  ctx_isLoading auth = true \/ ctx_isAuthenticated auth = true \/ redirected = true ->
  processCallback auth redirected w = (Normal tt, w).
Proof.
  intros Hparams Hidle. rewrite processCallback_guard_run by exact Hparams.
  destruct Hidle as [-> | [-> | ->]]; cbn [negb andb];
    rewrite ?andb_false_r; reflexivity.
Qed.

Lemma processCallback_idle_witness :
  let B := Examples.browser Examples.configured Examples.endpoint_ok in
  let auth := AuthProvider_value B
                {| isAuthenticated := true; isLoading := false; accessToken := Some "A" |} in
  processCallback auth false (Examples.world ∅ ∅) = (Normal tt, Examples.world ∅ ∅).
Proof.
  cbv zeta.
  apply (processCallback_idle
           (AuthProvider_value
              (Examples.browser Examples.configured Examples.endpoint_ok)
              {| isAuthenticated := true; isLoading := false; accessToken := Some "A" |})
           false (Examples.world ∅ ∅)).
  - reflexivity.
  - right. left. reflexivity.
Defined.

(** X14. After [logout], on the page that follows (same storage), the
    guard of an unauthenticated, loaded session does not start a login: it
    only removes [justLoggedOut] and notes that it has acted. The marker
    works once: with it consumed, and no login under way, the next guard
    does run [login]. *)
Theorem logout_then_guard
    (B : Browser) (auth : AuthContextType) (w w1 : World) :
  same_storage w1 (snd (logout B w)) ->
  has_callback_params w1 = false ->
  ctx_isLoading auth = false ->
  ctx_isAuthenticated auth = false ->
  let w2 := set_sessionStorage (delete "justLoggedOut") w1 in
  processCallback auth false w1 = (Normal tt, mark_redirected w2)
  /\ (truthy (sessionStorage w !! "isLoggingIn") = false ->
      processCallback auth false w2 = ctx_login auth (mark_redirected w2)).
Proof.
  intros [_ Hsession] Hparams Hloading Hauth. cbv zeta.
  rewrite logout_run in Hsession. world_simpl.
  split.
  - rewrite processCallback_guard_run by exact Hparams.
    rewrite Hloading, Hauth. cbn [negb andb].
    rewrite Hsession, lookup_delete_ne, lookup_insert_eq by discriminate.
    reflexivity.
  - intros Hmarker.
    rewrite processCallback_guard_run by exact Hparams.
    rewrite Hloading, Hauth. cbn [negb andb]. world_simpl.
    rewrite lookup_delete_eq. cbn [truthy].
    rewrite lookup_delete_ne by discriminate.
    rewrite Hsession, lookup_delete_ne, lookup_insert_ne by discriminate.
    rewrite Hmarker. reflexivity.
Qed.

Lemma logout_then_guard_witness :
  let B := Examples.browser Examples.configured Examples.endpoint_ok in
  let auth := AuthProvider_value B
                {| isAuthenticated := false; isLoading := false; accessToken := None |} in
  let w1 := page_load (snd (logout B (Examples.world ∅ ∅))) "/dashboard" [] in
  let w2 := set_sessionStorage (delete "justLoggedOut") w1 in
  processCallback auth false w1 = (Normal tt, mark_redirected w2)
  /\ (truthy (sessionStorage (Examples.world ∅ ∅) !! "isLoggingIn") = false ->
      processCallback auth false w2 = ctx_login auth (mark_redirected w2)).
Proof.
  cbv zeta.
  apply (logout_then_guard
           (Examples.browser Examples.configured Examples.endpoint_ok)
           (AuthProvider_value
              (Examples.browser Examples.configured Examples.endpoint_ok)
              {| isAuthenticated := false; isLoading := false; accessToken := None |})
           (Examples.world ∅ ∅)
           (page_load (snd (logout (Examples.browser Examples.configured
                                                     Examples.endpoint_ok)
                                   (Examples.world ∅ ∅)))
                      "/dashboard" [])).
  - apply same_storage_page_load.
  - apply page_load_without_query.
  - reflexivity.
  - reflexivity.
Defined.

(** X15. After [logout] nothing of an earlier login can be used on the
    page that follows: the mount effect finds no token, leaves a fresh
    session unauthenticated and durable storage as it is, and every
    callback, whatever its state, is rejected without a request. *)
Theorem logout_then_next_page
    (B B' : Browser) (code state : string) (w w1 : World) :
  same_storage w1 (snd (logout B w)) ->
  (session w1 = initial_session ->
   session (snd (load_tokens B' w1))
   = {| isAuthenticated := false; isLoading := false; accessToken := None |})
  /\ localStorage (snd (load_tokens B' w1)) = localStorage w1
  /\ fst (handleAuthCallback B' code state w1) = Normal false
  /\ fetch_count (events (snd (handleAuthCallback B' code state w1)))
     = fetch_count (events w1).
Proof.
  intros [Hlocal _].
  rewrite logout_run in Hlocal. world_simpl.
  assert (Htok : localStorage w1 !! "access_token" = None).
  { rewrite Hlocal. unfold logout_storage.
    rewrite lookup_delete_ne by discriminate.
    apply purge_tokens_lookup. cbn. tauto. }
  assert (Hstate : localStorage w1 !! "oauth_state" = None).
  { rewrite Hlocal. unfold logout_storage. apply lookup_delete_eq. }
  rewrite load_tokens_run. cbn [snd]. rewrite Htok. cbn [truthy andb]. world_simpl.
  split; [intros ->; reflexivity |].
  split; [reflexivity |].
  rewrite handleAuthCallback_mismatch_run by (rewrite Hstate; discriminate).
  world_simpl. split; [reflexivity |].
  rewrite fetch_count_app, fetch_count_one. cbn [is_fetch]. lia.
Qed.

Lemma logout_then_next_page_witness :
  let B := Examples.browser Examples.configured Examples.endpoint_ok in
  let w := Examples.world (<["access_token" := "A"]> (<["token_expiry" := "5000"]>
                            (<["oauth_state" := "xyz"]> ∅))) ∅ in
  let w1 := page_load (snd (logout B w)) "/dashboard" [] in
  session (snd (load_tokens B w1))
  = {| isAuthenticated := false; isLoading := false; accessToken := None |}
  /\ fst (handleAuthCallback B "abc" "xyz" w1) = Normal false.
Proof.
  cbv zeta.
  pose proof (logout_then_next_page
                (Examples.browser Examples.configured Examples.endpoint_ok)
                (Examples.browser Examples.configured Examples.endpoint_ok)
                "abc" "xyz"
                (Examples.world (<["access_token" := "A"]> (<["token_expiry" := "5000"]>
                                  (<["oauth_state" := "xyz"]> ∅))) ∅)
                (page_load
                   (snd (logout (Examples.browser Examples.configured Examples.endpoint_ok)
                                (Examples.world (<["access_token" := "A"]>
                                   (<["token_expiry" := "5000"]>
                                      (<["oauth_state" := "xyz"]> ∅))) ∅)))
                   "/dashboard" [])) as H.
  destruct H as (Hload & _ & Hcb & _).
  - apply same_storage_page_load.
  - split; [apply Hload; reflexivity | exact Hcb].
Defined.

(** What [handleAuthCallback] never touches: the location, the state of
    the guard, and the browser's address (no navigation); and it always
    returns a boolean. *)
Lemma handleAuthCallback_frame (B : Browser) (code state : string) (w : World) :
  let r := handleAuthCallback B code state w in
  (exists success, fst r = Normal success)
  /\ search (snd r) = search w
  /\ pathname (snd r) = pathname w
  /\ hasRedirected (snd r) = hasRedirected w
  /\ isProcessingCallback (snd r) = isProcessingCallback w
  /\ navigation_count (events (snd r)) = navigation_count (events w)
  /\ sessionStorage (snd r) !! "isLoggingIn" = None.
Proof.
  cbv zeta. unfold handleAuthCallback. js_unfold.
  js_cases; world_simpl;
    (split; [eexists; reflexivity |]);
    (split; [reflexivity |]); (split; [reflexivity |]);
    (split; [reflexivity |]); (split; [reflexivity |]);
    (split; [| apply lookup_delete_eq]);
    rewrite <- ?List.app_assoc; rewrite ?navigation_count_app;
    unfold navigation_count; cbn [List.filter is_navigation List.app List.length];
    lia.
Qed.

(** X16. With a non-empty [code] and [state] in the URL, the guard of the
    provider runs [handleAuthCallback] on them and nothing else: [login] is
    not run and there is no navigation; the processing flag is back to
    false at the end; the query string is removed from the URL exactly when
    the handler returned true, and is kept otherwise, so that the page
    stays where it is after a failure. *)
Theorem processCallback_callback_branch
    (B : Browser) (s : Session) (redirected : bool) (w : World) (code state : string) :
  params_get "code" (search w) = Some code -> code <> "" ->
  params_get "state" (search w) = Some state -> state <> "" ->
  let r := handleAuthCallback B code state (mark_processing true w) in
  let w' := snd (processCallback (AuthProvider_value B s) redirected w) in
  fst (processCallback (AuthProvider_value B s) redirected w) = Normal tt
  /\ localStorage w' = localStorage (snd r)
  /\ sessionStorage w' = sessionStorage (snd r)
  /\ session w' = session (snd r)
  /\ isProcessingCallback w' = false
  /\ hasRedirected w' = hasRedirected w
  /\ pathname w' = pathname w
  /\ search w' = (if returned_true (fst r) then [] else search w)
  /\ navigation_count (events w') = navigation_count (events w)
  /\ sessionStorage w' !! "isLoggingIn" = None.
Proof.
  intros Hcode Hcode' Hstate Hstate'. cbv zeta.
  destruct (handleAuthCallback_frame B code state (mark_processing true w))
    as ([success Hret] & Hsearch & Hpath & Hred & _ & Hnav & Hmarker).
  unfold processCallback. js_unfold.
  rewrite Hcode, Hstate, (truthy_Some _ Hcode'), (truthy_Some _ Hstate').
  cbn [andb AuthProvider_value ctx_handleAuthCallback from_option id].
  fold (mark_processing true w).
  destruct (handleAuthCallback B code state (mark_processing true w)) as [c w1].
  cbn [fst snd] in *. subst c.
  destruct success; world_simpl; cbn [returned_true];
    repeat split; assumption.
Qed.

Lemma processCallback_callback_branch_witness :
  let B := Examples.browser Examples.configured Examples.endpoint_ok in
  let w := page_load Examples.awaiting_callback "/dashboard"
                     [("code", "abc"); ("state", "xyz")] in
  let w' := snd (processCallback (AuthProvider_value B initial_session) false w) in
  search w' = (if returned_true
                    (fst (handleAuthCallback B "abc" "xyz" (mark_processing true w)))
               then [] else search w)
  /\ isProcessingCallback w' = false
  /\ navigation_count (events w') = navigation_count (events w).
Proof.
  cbv zeta.
  pose proof (processCallback_callback_branch
                (Examples.browser Examples.configured Examples.endpoint_ok)
                initial_session false
                (page_load Examples.awaiting_callback "/dashboard"
                           [("code", "abc"); ("state", "xyz")])
                "abc" "xyz") as H.
  cbv zeta in H.
  destruct H as (_ & _ & _ & _ & Hproc & _ & _ & Hsearch & Hnav & _).
  - reflexivity.
  - discriminate.
  - reflexivity.
  - discriminate.
  - split; [exact Hsearch | split; [exact Hproc | exact Hnav]].
Defined.

(** X17. While a login started by [login] is under way, a guard that runs
    on the same storage (a second guard, or the same page rendered anew)
    does not start another one: it finds [isLoggingIn], logs that a login
    is in progress and notes that it has acted; there is no second
    navigation. *)
Theorem login_then_guard
    (B : Browser) (auth : AuthContextType) (w w1 : World) :
  redirectUri (OAUTH_CONFIG B) <> "" ->
  same_storage w1 (snd (login B w)) ->
  truthy (sessionStorage w !! "justLoggedOut") = false ->
  has_callback_params w1 = false ->
  ctx_isLoading auth = false ->
  ctx_isAuthenticated auth = false ->
  processCallback auth false w1
  = (Normal tt,
     mark_redirected
       (emit (ConsoleLog "Login already in progress, skipping duplicate trigger") w1)).
Proof.
  intros Huri [_ Hsession] Hout Hparams Hloading Hauth.
  rewrite (login_configured_run B w Huri) in Hsession. world_simpl.
  rewrite processCallback_guard_run by exact Hparams.
  rewrite Hloading, Hauth. cbn [negb andb].
  rewrite Hsession.
  rewrite !lookup_insert_ne by discriminate. rewrite Hout.
  rewrite lookup_insert_eq. reflexivity.
Qed.

Lemma login_then_guard_witness :
  let B := Examples.browser Examples.configured Examples.endpoint_ok in
  let auth := AuthProvider_value B
                {| isAuthenticated := false; isLoading := false; accessToken := None |} in
  let w1 := page_load (snd (login B (Examples.world ∅ ∅))) "/dashboard" [] in
  processCallback auth false w1
  = (Normal tt,
     mark_redirected
       (emit (ConsoleLog "Login already in progress, skipping duplicate trigger") w1)).
Proof.
  cbv zeta.
  apply (login_then_guard
           (Examples.browser Examples.configured Examples.endpoint_ok)
           (AuthProvider_value
              (Examples.browser Examples.configured Examples.endpoint_ok)
              {| isAuthenticated := false; isLoading := false; accessToken := None |})
           (Examples.world ∅ ∅)).
  - vm_compute. discriminate.
  - apply same_storage_page_load.
  - reflexivity.
  - apply page_load_without_query.
  - reflexivity.
  - reflexivity.
Defined.



(** X19. A returning user: with a non-empty access token and an expiry in
    the future in storage, and no callback parameters, the mount effect
    authenticates the session and the guard that follows does nothing:
    no login, no navigation, no request, storage unchanged. *)
Theorem returning_user_stays (B : Browser) (w : World)
    (token tokenExpiry : string) (expiryTime : Z) :
  localStorage w !! "access_token" = Some token ->
  token <> "" ->
  localStorage w !! "token_expiry" = Some tokenExpiry ->
  parseInt tokenExpiry = Some expiryTime ->
  Date_now B < expiryTime ->
  has_callback_params w = false ->
  let w1 := snd (load_tokens B w) in
  let w2 := snd (processCallback (AuthProvider_value B (session w1)) false w1) in
  session w2 = {| isAuthenticated := true; isLoading := false; accessToken := Some token |}
  /\ localStorage w2 = localStorage w
  /\ sessionStorage w2 = sessionStorage w
  /\ events w2 = events w
  /\ hasRedirected w2 = hasRedirected w.
Proof.
  intros Htoken Hne Hexpiry Hparse Hlt Hparams. cbv zeta.
  rewrite load_tokens_run. cbn [snd].
  rewrite Htoken, Hexpiry, (truthy_Some token Hne),
          (truthy_Some tokenExpiry (parseInt_nonempty _ _ Hparse)).
  cbn [andb from_option id]. rewrite Hparse. cbn [lt_number].
  destruct (Z.ltb_spec (Date_now B) expiryTime) as [_ | Hge]; [| lia].
  world_simpl.
  rewrite processCallback_guard_run by exact Hparams.
  cbn [AuthProvider_value ctx_isLoading ctx_isAuthenticated
       isLoading isAuthenticated negb andb snd].
  world_simpl. repeat split.
Qed.

Lemma returning_user_stays_witness :
  let B := Examples.browser Examples.configured Examples.endpoint_ok in
  let w := Examples.world
             (<["access_token" := "A"]> (<["token_expiry" := "1001"]> ∅)) ∅ in
  let w1 := snd (load_tokens B w) in
  let w2 := snd (processCallback (AuthProvider_value B (session w1)) false w1) in
  session w2 = {| isAuthenticated := true; isLoading := false; accessToken := Some "A" |}
  /\ localStorage w2 = localStorage w
  /\ sessionStorage w2 = sessionStorage w
  /\ events w2 = events w
  /\ hasRedirected w2 = hasRedirected w.
Proof.
  cbv zeta.
  apply (returning_user_stays
           (Examples.browser Examples.configured Examples.endpoint_ok)
           (Examples.world (<["access_token" := "A"]> (<["token_expiry" := "1001"]> ∅)) ∅)
           "A" "1001" 1001).
  - vm_compute. reflexivity.
  - discriminate.
  - vm_compute. reflexivity.
  - vm_compute. reflexivity.
  - vm_compute. reflexivity.
  - reflexivity.
Defined.

(** *** The encoder loses nothing *)

Lemma sextet_index_spec (i : Z) :
  0 <= i < 64 -> sextet_index (url_safe (Base64.sextet i)) = i.
Proof.
  intros Hi.
  assert (Hall : List.forallb
            (fun k => sextet_index (url_safe (Base64.sextet (Z.of_nat k))) =? Z.of_nat k)
            (seq 0 64) = true) by (vm_compute; reflexivity).
  rewrite List.forallb_forall in Hall.
  specialize (Hall (Z.to_nat i)).
  rewrite Z2Nat.id in Hall by lia.
  apply Z.eqb_eq, Hall, List.in_seq. lia.
Qed.

Lemma sextet_url_safe_inj (i j : Z) :
  0 <= i < 64 -> 0 <= j < 64 ->
  url_safe (Base64.sextet i) = url_safe (Base64.sextet j) -> i = j.
Proof.
  intros Hi Hj Heq.
  rewrite <- (sextet_index_spec i Hi), <- (sextet_index_spec j Hj), Heq. reflexivity.
Qed.

(** Bit fields that do not overlap add up. *)
Lemma lor_fields (hi lo shift : Z) :
  0 <= hi < 16 -> 0 <= shift <= 4 -> 0 <= lo < 2 ^ shift ->
  Z.lor (hi * 2 ^ shift) lo = hi * 2 ^ shift + lo.
Proof.
  intros Hhi Hshift Hlo.
  assert (Hlo' : 0 <= lo < 16).
  { split; [lia |]. apply Z.lt_le_trans with (2 ^ shift); [lia |].
    change 16 with (2 ^ 4). apply Z.pow_le_mono_r; lia. }
  assert (Hall : List.forallb
            (fun h => List.forallb
               (fun s => List.forallb
                  (fun l => (2 ^ Z.of_nat s <=? Z.of_nat l)
                            || (Z.lor (Z.of_nat h * 2 ^ Z.of_nat s) (Z.of_nat l)
                                =? Z.of_nat h * 2 ^ Z.of_nat s + Z.of_nat l))
                  (seq 0 16))
               (seq 0 5))
            (seq 0 16) = true) by (vm_compute; reflexivity).
  rewrite List.forallb_forall in Hall.
  specialize (Hall (Z.to_nat hi) ltac:(apply List.in_seq; lia)).
  rewrite List.forallb_forall in Hall.
  specialize (Hall (Z.to_nat shift) ltac:(apply List.in_seq; lia)).
  rewrite List.forallb_forall in Hall.
  specialize (Hall (Z.to_nat lo) ltac:(apply List.in_seq; lia)).
  rewrite !Z2Nat.id in Hall by lia.
  apply orb_true_iff in Hall as [Hbig | Heq].
  - apply Z.leb_le in Hbig. lia.
  - apply Z.eqb_eq in Heq. exact Heq.
Qed.

Lemma sextet2_value (a b : Z) :
  0 <= a < 256 -> 0 <= b < 256 ->
  Z.lor (Z.shiftl (Z.land a 3) 4) (Z.shiftr b 4) = (a mod 4) * 16 + b / 16.
Proof.
  intros Ha Hb.
  rewrite Z.shiftl_mul_pow2, Z.shiftr_div_pow2 by lia.
  change 3 with (Z.ones 2). rewrite Z.land_ones by lia.
  change (2 ^ 2) with 4.
  pose proof (Z.mod_pos_bound a 4 ltac:(lia)).
  assert (0 <= b / 2 ^ 4 < 2 ^ 4).
  { change (2 ^ 4) with 16.
    split; [apply Z.div_pos; lia | apply Z.div_lt_upper_bound; lia]. }
  rewrite lor_fields by lia. reflexivity.
Qed.

Lemma sextet3_value (b c : Z) :
  0 <= b < 256 -> 0 <= c < 256 ->
  Z.lor (Z.shiftl (Z.land b 15) 2) (Z.shiftr c 6) = (b mod 16) * 4 + c / 64.
Proof.
  intros Hb Hc.
  rewrite Z.shiftl_mul_pow2, Z.shiftr_div_pow2 by lia.
  change 15 with (Z.ones 4). rewrite Z.land_ones by lia.
  change (2 ^ 4) with 16. change (2 ^ 6) with 64.
  pose proof (Z.mod_pos_bound b 16 ltac:(lia)).
  assert (0 <= c / 64 < 2 ^ 2).
  { change (2 ^ 2) with 4.
    split; [apply Z.div_pos; lia | apply Z.div_lt_upper_bound; lia]. }
  rewrite lor_fields by lia. reflexivity.
Qed.

Lemma code_inj (a b : ascii) : Base64.code a = Base64.code b -> a = b.
Proof.
  unfold Base64.code. intros H. apply N2Z.inj in H.
  rewrite <- (ascii_N_embedding a), <- (ascii_N_embedding b), H. reflexivity.
Qed.

Lemma encode_binary_nil :
  strip_trailing_eq (replace_all "/" "_" (replace_all "+" "-" (Base64.btoa ""))) = "".
Proof. reflexivity. Qed.

Lemma encode_binary_one (a : ascii) :
  strip_trailing_eq
    (replace_all "/" "_" (replace_all "+" "-" (Base64.btoa (String a ""))))
  = String (url_safe (Base64.sextet (Z.shiftr (Base64.code a) 2)))
      (String (url_safe (Base64.sextet (Z.shiftl (Z.land (Base64.code a) 3) 4))) "").
Proof.
  pose proof (code_bounded a) as Ha.
  cbn [Base64.btoa]. rewrite !replace_both_cons.
  destruct (sextet_url_safe _ (sextet_hi _ Ha)) as [_ N1].
  destruct (sextet_url_safe _ (sextet_lo_pad _ Ha)) as [_ N2].
  rewrite !strip_trailing_eq_cons by assumption. reflexivity.
Qed.

Lemma encode_binary_two (a b : ascii) :
  strip_trailing_eq
    (replace_all "/" "_" (replace_all "+" "-" (Base64.btoa (String a (String b "")))))
  = String (url_safe (Base64.sextet (Z.shiftr (Base64.code a) 2)))
      (String (url_safe (Base64.sextet
                 (Z.lor (Z.shiftl (Z.land (Base64.code a) 3) 4)
                        (Z.shiftr (Base64.code b) 4))))
         (String (url_safe (Base64.sextet (Z.shiftl (Z.land (Base64.code b) 15) 2))) "")).
Proof.
  pose proof (code_bounded a) as Ha. pose proof (code_bounded b) as Hb.
  cbn [Base64.btoa]. rewrite !replace_both_cons.
  destruct (sextet_url_safe _ (sextet_hi _ Ha)) as [_ N1].
  destruct (sextet_url_safe _ (sextet_mid1 _ _ Ha Hb)) as [_ N2].
  destruct (sextet_url_safe _ (sextet_mid2_pad _ Hb)) as [_ N3].
  rewrite !strip_trailing_eq_cons by assumption. reflexivity.
Qed.

Lemma encode_binary_three (a b c : ascii) (rest : string) :
  strip_trailing_eq
    (replace_all "/" "_" (replace_all "+" "-"
       (Base64.btoa (String a (String b (String c rest))))))
  = String (url_safe (Base64.sextet (Z.shiftr (Base64.code a) 2)))
      (String (url_safe (Base64.sextet
                 (Z.lor (Z.shiftl (Z.land (Base64.code a) 3) 4)
                        (Z.shiftr (Base64.code b) 4))))
         (String (url_safe (Base64.sextet
                    (Z.lor (Z.shiftl (Z.land (Base64.code b) 15) 2)
                           (Z.shiftr (Base64.code c) 6))))
            (String (url_safe (Base64.sextet (Z.land (Base64.code c) 63)))
               (strip_trailing_eq
                  (replace_all "/" "_" (replace_all "+" "-" (Base64.btoa rest))))))).
Proof.
  pose proof (code_bounded a) as Ha. pose proof (code_bounded b) as Hb.
  pose proof (code_bounded c) as Hc.
  cbn [Base64.btoa]. rewrite !replace_both_cons.
  destruct (sextet_url_safe _ (sextet_hi _ Ha)) as [_ N1].
  destruct (sextet_url_safe _ (sextet_mid1 _ _ Ha Hb)) as [_ N2].
  destruct (sextet_url_safe _ (sextet_mid2 _ _ Hb Hc)) as [_ N3].
  destruct (sextet_url_safe _ (sextet_last _ Hc)) as [_ N4].
  rewrite !strip_trailing_eq_cons by assumption. reflexivity.
Qed.

(** Equal first sextets, and so on: the bytes of a group are determined by
    its output characters. *)
Lemma group_bytes_1 (a a' : ascii) :
  url_safe (Base64.sextet (Z.shiftr (Base64.code a) 2))
  = url_safe (Base64.sextet (Z.shiftr (Base64.code a') 2)) ->
  Base64.code a / 4 = Base64.code a' / 4.
Proof.
  intros H. pose proof (code_bounded a) as Ha. pose proof (code_bounded a') as Ha'.
  apply sextet_url_safe_inj in H; try (apply sextet_hi; assumption).
  rewrite !Z.shiftr_div_pow2 in H by lia. exact H.
Qed.

Lemma group_bytes_2_pad (a a' : ascii) :
  url_safe (Base64.sextet (Z.shiftl (Z.land (Base64.code a) 3) 4))
  = url_safe (Base64.sextet (Z.shiftl (Z.land (Base64.code a') 3) 4)) ->
  Base64.code a mod 4 = Base64.code a' mod 4.
Proof.
  intros H. pose proof (code_bounded a) as Ha. pose proof (code_bounded a') as Ha'.
  apply sextet_url_safe_inj in H; try (apply sextet_lo_pad; assumption).
  rewrite !Z.shiftl_mul_pow2 in H by lia.
  change 3 with (Z.ones 2) in H. rewrite !Z.land_ones in H by lia.
  change (2 ^ 2) with 4 in H. change (2 ^ 4) with 16 in H. lia.
Qed.

Lemma group_bytes_2 (a a' b b' : ascii) :
  url_safe (Base64.sextet (Z.lor (Z.shiftl (Z.land (Base64.code a) 3) 4)
                                 (Z.shiftr (Base64.code b) 4)))
  = url_safe (Base64.sextet (Z.lor (Z.shiftl (Z.land (Base64.code a') 3) 4)
                                   (Z.shiftr (Base64.code b') 4))) ->
  Base64.code a mod 4 = Base64.code a' mod 4
  /\ Base64.code b / 16 = Base64.code b' / 16.
Proof.
  intros H. pose proof (code_bounded a) as Ha. pose proof (code_bounded a') as Ha'.
  pose proof (code_bounded b) as Hb. pose proof (code_bounded b') as Hb'.
  apply sextet_url_safe_inj in H; try (apply sextet_mid1; assumption).
  rewrite !sextet2_value in H by assumption.
  pose proof (Z.mod_pos_bound (Base64.code a) 4 ltac:(lia)).
  pose proof (Z.mod_pos_bound (Base64.code a') 4 ltac:(lia)).
  assert (0 <= Base64.code b / 16 < 16)
    by (split; [apply Z.div_pos; lia | apply Z.div_lt_upper_bound; lia]).
  assert (0 <= Base64.code b' / 16 < 16)
    by (split; [apply Z.div_pos; lia | apply Z.div_lt_upper_bound; lia]).
  lia.
Qed.

Lemma group_bytes_3_pad (b b' : ascii) :
  url_safe (Base64.sextet (Z.shiftl (Z.land (Base64.code b) 15) 2))
  = url_safe (Base64.sextet (Z.shiftl (Z.land (Base64.code b') 15) 2)) ->
  Base64.code b mod 16 = Base64.code b' mod 16.
Proof.
  intros H. pose proof (code_bounded b) as Hb. pose proof (code_bounded b') as Hb'.
  apply sextet_url_safe_inj in H; try (apply sextet_mid2_pad; assumption).
  rewrite !Z.shiftl_mul_pow2 in H by lia.
  change 15 with (Z.ones 4) in H. rewrite !Z.land_ones in H by lia.
  change (2 ^ 2) with 4 in H. change (2 ^ 4) with 16 in H. lia.
Qed.

Lemma group_bytes_3 (b b' c c' : ascii) :
  url_safe (Base64.sextet (Z.lor (Z.shiftl (Z.land (Base64.code b) 15) 2)
                                 (Z.shiftr (Base64.code c) 6)))
  = url_safe (Base64.sextet (Z.lor (Z.shiftl (Z.land (Base64.code b') 15) 2)
                                   (Z.shiftr (Base64.code c') 6))) ->
  Base64.code b mod 16 = Base64.code b' mod 16
  /\ Base64.code c / 64 = Base64.code c' / 64.
Proof.
  intros H. pose proof (code_bounded b) as Hb. pose proof (code_bounded b') as Hb'.
  pose proof (code_bounded c) as Hc. pose proof (code_bounded c') as Hc'.
  apply sextet_url_safe_inj in H; try (apply sextet_mid2; assumption).
  rewrite !sextet3_value in H by assumption.
  pose proof (Z.mod_pos_bound (Base64.code b) 16 ltac:(lia)).
  pose proof (Z.mod_pos_bound (Base64.code b') 16 ltac:(lia)).
  assert (0 <= Base64.code c / 64 < 4)
    by (split; [apply Z.div_pos; lia | apply Z.div_lt_upper_bound; lia]).
  assert (0 <= Base64.code c' / 64 < 4)
    by (split; [apply Z.div_pos; lia | apply Z.div_lt_upper_bound; lia]).
  lia.
Qed.

Lemma group_bytes_4 (c c' : ascii) :
  url_safe (Base64.sextet (Z.land (Base64.code c) 63))
  = url_safe (Base64.sextet (Z.land (Base64.code c') 63)) ->
  Base64.code c mod 64 = Base64.code c' mod 64.
Proof.
  intros H. pose proof (code_bounded c) as Hc. pose proof (code_bounded c') as Hc'.
  apply sextet_url_safe_inj in H; try (apply sextet_last; assumption).
  change 63 with (Z.ones 6) in H. rewrite !Z.land_ones in H by lia.
  exact H.
Qed.

Lemma code_from_parts (a a' : ascii) (d : Z) :
  0 < d ->
  Base64.code a / d = Base64.code a' / d ->
  Base64.code a mod d = Base64.code a' mod d ->
  a = a'.
Proof.
  intros Hd Hdiv Hmod. apply code_inj.
  rewrite (Z.div_mod (Base64.code a) d), (Z.div_mod (Base64.code a') d) by lia.
  rewrite Hdiv, Hmod. reflexivity.
Qed.

(** The encoder is injective on binary strings. *)
Lemma encode_binary_inj (s1 s2 : string) :
  strip_trailing_eq (replace_all "/" "_" (replace_all "+" "-" (Base64.btoa s1)))
  = strip_trailing_eq (replace_all "/" "_" (replace_all "+" "-" (Base64.btoa s2))) ->
  s1 = s2.
Proof.
  revert s2.
  induction s1 as [| a | a b | a b c rest IH] using string_ind3;
    intros s2 H; destruct s2 as [| a' [| b' [| c' rest']]];
    rewrite ?encode_binary_nil, ?encode_binary_one, ?encode_binary_two,
            ?encode_binary_three in H;
    try discriminate H; try reflexivity.
  - injection H as H1 H2.
    f_equal. apply (code_from_parts a a' 4); [lia | |].
    + apply group_bytes_1; assumption.
    + apply group_bytes_2_pad; assumption.
  - injection H as H1 H2 H3.
    apply group_bytes_1 in H1. apply group_bytes_2 in H2 as [H2a H2b].
    apply group_bytes_3_pad in H3.
    rewrite (code_from_parts a a' 4), (code_from_parts b b' 16) by (lia || assumption).
    reflexivity.
  - injection H as H1 H2 H3 H4 H5.
    apply group_bytes_1 in H1. apply group_bytes_2 in H2 as [H2a H2b].
    apply group_bytes_3 in H3 as [H3a H3b]. apply group_bytes_4 in H4.
    rewrite (code_from_parts a a' 4), (code_from_parts b b' 16),
            (code_from_parts c c' 64) by (lia || assumption).
    rewrite (IH rest' H5). reflexivity.
Qed.

Lemma string_append_assoc (s1 s2 s3 : string) : (s1 ++ s2) ++ s3 = s1 ++ (s2 ++ s3).
Proof.
  induction s1 as [| c s1 IH]; [reflexivity |].
  change (String c ((s1 ++ s2) ++ s3) = String c (s1 ++ (s2 ++ s3))).
  rewrite IH. reflexivity.
Qed.

Lemma string_append_cancel (s x y : string) : s ++ x = s ++ y -> x = y.
Proof.
  induction s as [| c s IH]; intros H; [exact H |].
  change (String c (s ++ x) = String c (s ++ y)) in H.
  injection H as H. exact (IH H).
Qed.

Lemma binary_of_bytes_string (bytes : list Z) (binary : string) :
  binary_of_bytes binary bytes = binary ++ binary_string bytes.
Proof.
  revert binary. induction bytes as [| b bytes IH]; intros binary.
  - cbn [binary_of_bytes binary_string].
    induction binary as [| c s IHs]; [reflexivity |].
    change (String c s = String c (s ++ "")). rewrite <- IHs. reflexivity.
  - cbn [binary_of_bytes binary_string].
    rewrite IH, string_append_assoc. reflexivity.
Qed.

Lemma fromCharCode_inj (b1 b2 : Z) :
  is_byte b1 -> is_byte b2 -> fromCharCode b1 = fromCharCode b2 -> b1 = b2.
Proof.
  unfold is_byte, fromCharCode. intros H1 H2 Heq.
  rewrite !Z.mod_small in Heq by lia.
  apply (f_equal N_of_ascii) in Heq.
  rewrite !N_ascii_embedding in Heq by lia. lia.
Qed.

Lemma binary_string_inj (bytes1 bytes2 : list Z) :
  Forall is_byte bytes1 -> Forall is_byte bytes2 ->
  binary_string bytes1 = binary_string bytes2 -> bytes1 = bytes2.
Proof.
  intros H1. revert bytes2.
  induction H1 as [| b1 bytes1 Hb1 _ IH]; intros bytes2 H2 Heq;
    destruct H2 as [| b2 bytes2 Hb2 H2]; simpl in Heq;
    try discriminate Heq; [reflexivity |].
  injection Heq as Hc Hrest.
  rewrite (fromCharCode_inj b1 b2 Hb1 Hb2 Hc), (IH bytes2 H2 Hrest). reflexivity.
Qed.

Lemma base64UrlEncode_inj (bytes1 bytes2 : list Z) :
  Forall is_byte bytes1 -> Forall is_byte bytes2 ->
  base64UrlEncode bytes1 = base64UrlEncode bytes2 -> bytes1 = bytes2.
Proof.
  intros H1 H2 Heq. unfold base64UrlEncode in Heq. cbv zeta in Heq.
  apply encode_binary_inj in Heq.
  rewrite !binary_of_bytes_string in Heq. simpl in Heq.
  apply binary_string_inj; assumption.
Qed.

Lemma getRandomValues_bytes (source : nat -> Z) (n : nat) :
  Forall is_byte (getRandomValues source n).
Proof.
  unfold getRandomValues. apply List.Forall_forall. intros b Hb.
  apply List.in_map_iff in Hb as (i & <- & _).
  apply Z.mod_pos_bound. lia.
Qed.

(** X20. [base64UrlEncode] loses nothing: two byte sequences have the same
    encoding only when they are the same sequence (of the same length,
    with the same bytes). *)
Theorem base64UrlEncode_injective (bytes1 bytes2 : list Z) :
  Forall is_byte bytes1 -> Forall is_byte bytes2 ->
  (base64UrlEncode bytes1 = base64UrlEncode bytes2 <-> bytes1 = bytes2).
Proof.
  intros H1 H2. split.
  - apply base64UrlEncode_inj; assumption.
  - intros ->. reflexivity.
Qed.

Lemma base64UrlEncode_injective_witness :
  base64UrlEncode [0; 255] <> base64UrlEncode [0; 255; 0]
  /\ base64UrlEncode [251] <> base64UrlEncode [255].
Proof.
  split; intros Heq.
  - apply (base64UrlEncode_injective [0; 255] [0; 255; 0]) in Heq.
    + discriminate Heq.
    + repeat constructor; unfold is_byte; lia.
    + repeat constructor; unfold is_byte; lia.
  - apply (base64UrlEncode_injective [251] [255]) in Heq.
    + discriminate Heq.
    + repeat constructor; unfold is_byte; lia.
    + repeat constructor; unfold is_byte; lia.
Defined.

(** X21. The code verifier keeps all of the randomness it is made from:
    two verifiers are equal exactly when the 32 random bytes behind them
    are equal, byte for byte. *)
Theorem generateCodeVerifier_injective (source1 source2 : nat -> Z) :
  generateCodeVerifier source1 = generateCodeVerifier source2
  <-> (forall i, (i < 32)%nat -> source1 i mod 256 = source2 i mod 256).
Proof.
  unfold generateCodeVerifier. cbv zeta. split.
  - intros Heq i Hi.
    apply base64UrlEncode_inj in Heq; try apply getRandomValues_bytes.
    unfold getRandomValues in Heq.
    apply (proj1 List.map_ext_in_iff Heq). apply List.in_seq. lia.
  - intros Hbytes. f_equal. unfold getRandomValues.
    apply List.map_ext_in. intros i Hi. apply Hbytes. apply List.in_seq in Hi. lia.
Qed.

Lemma generateCodeVerifier_injective_witness :
  generateCodeVerifier (fun i => Z.of_nat i)
  = generateCodeVerifier (fun i => Z.of_nat i + 256).
Proof.
  apply (proj2 (generateCodeVerifier_injective
                  (fun i => Z.of_nat i) (fun i => Z.of_nat i + 256))).
  intros i Hi. symmetry. apply (Z_mod_plus_full (Z.of_nat i) 1 256).
Defined.
